(** * IRC sensor: a shallow embedding of [sensors/irc_sensor.py]

    The sensor is a thin adapter between an IRC client library and a host
    that receives triggers.  The embedding follows the Python source method
    by method:

    - the values of a trigger payload are an inductive type [pyval], those
      of a configuration entry a type [cfgval]; a [dict] is a [gmap] with
      string keys, so that dict equality does not depend on the order in
      which the literal lists its keys;
    - an exception is the [Raise] branch of [result];
    - the objects the callbacks mutate (the connection, the host's dispatch
      sink, the logger, the bot's liveness) are the fields of a [session]
      record that every callback takes and returns;
    - the two readings of the outside world that the callbacks make,
      [time.time()] and [random.randint(a, b)], come with each input. *)

From Stdlib Require Import Ascii String ZArith QArith Qround.
From stdpp Require Import gmap strings list fin_maps pretty.

Local Open Scope string_scope.
Local Open Scope Z_scope.

(** ** Python values and exceptions *)

(** Values that the adapter puts in a trigger payload: strings, integers
    and nested dicts. *)
#[local] Unset Elimination Schemes.
Inductive pyval : Type :=
| PStr (s : string)
| PInt (z : Z)
| PDict (d : gmap string pyval).
#[local] Set Elimination Schemes.

(** Values of a configuration entry, in the shape the host hands them over:
    a string ([server], [nickname], [password]) or a list of strings
    ([channels]). *)
Inductive cfgval : Type :=
| CStr (s : string)
| CList (l : list string).

Inductive pyerr : Type :=
| KeyError (key : string)
| IndexError
| ValueError
| AttributeError (attr : string)
| TypeError.

Inductive result (A : Type) : Type :=
| Ok (a : A)
| Raise (e : pyerr).
Arguments Ok {A} a.
Arguments Raise {A} e.

#[global] Instance result_ret : MRet result := λ A a, Ok a.
#[global] Instance result_bind : MBind result := λ A B k r,
  match r with
  | Ok a => k a
  | Raise e => Raise e
  end.

(** [d[key]] on a dict. *)
Definition getitem {V : Type} (d : gmap string V) (key : string) : result V :=
  match d !! key with
  | Some v => Ok v
  | None => Raise (KeyError key)
  end.

(** [l[i]] on a list. *)
Definition list_getitem {A : Type} (l : list A) (i : nat) : result A :=
  match l !! i with
  | Some a => Ok a
  | None => Raise IndexError
  end.

(** Truth value of a configuration entry, as [if obj:] tests it: an empty
    string and an empty list are false. *)
Definition truthy (v : cfgval) : bool :=
  match v with
  | CStr s => negb (String.eqb s "")
  | CList l => match l with [] => false | _ :: _ => true end
  end.

(** Truth value of the result of [d.get(key)], which is [None] (false) when
    the key is absent. *)
Definition truthy_opt (o : option cfgval) : bool :=
  match o with
  | None => false
  | Some v => truthy v
  end.

(** ** The string operations the source calls *)

(** [s.split(sep)] for a one-character separator: the fields between the
    separators, in order; always at least one field. *)
Fixpoint split (sep : ascii) (s : string) : list string :=
  match s with
  | EmptyString => [""]
  | String c rest =>
      if Ascii.eqb c sep then "" :: split sep rest
      else match split sep rest with
           | field :: fields => String c field :: fields
           | [] => [String c ""]
           end
  end.

(** [needle in hay] on strings. *)
Fixpoint contains (needle hay : string) : bool :=
  String.prefix needle hay ||
  match hay with
  | EmptyString => false
  | String _ rest => contains needle rest
  end.

Definition is_space (c : ascii) : bool :=
  let n := nat_of_ascii c in
  ((9 <=? n) && (n <=? 13))%nat || (n =? 32)%nat.

Fixpoint lstrip (s : string) : string :=
  match s with
  | String c rest => if is_space c then lstrip rest else s
  | EmptyString => EmptyString
  end.

Fixpoint rstrip (s : string) : string :=
  match s with
  | String c rest =>
      match rstrip rest with
      | EmptyString => if is_space c then EmptyString else String c EmptyString
      | rest' => String c rest'
      end
  | EmptyString => EmptyString
  end.

Definition digit_value (c : ascii) : option Z :=
  let n := nat_of_ascii c in
  if ((48 <=? n) && (n <=? 57))%nat then Some (Z.of_nat n - 48) else None.

Fixpoint digits_value (acc : Z) (s : string) : option Z :=
  match s with
  | EmptyString => Some acc
  | String c rest =>
      match digit_value c with
      | Some d => digits_value (10 * acc + d) rest
      | None => None
      end
  end.

Definition unsigned_value (s : string) : option Z :=
  match s with
  | EmptyString => None
  | String _ _ => digits_value 0 s
  end.

(** A reading of [int(s)] for plain ASCII decimal literals: surrounding
    white space is dropped, one sign is allowed, at least one digit is
    required; anything else is a [ValueError].  The builtin accepts more
    than that (an underscore between two digits, the digits of other
    scripts) and, in recent versions, refuses a literal of more than 4300
    digits.  The constructor of the sensor therefore takes the builtin as
    an argument, and what is proved of it holds whatever [int] is; this
    reading serves the sample configurations, on which it agrees with the
    builtin. *)
Definition int_of_str (s : string) : result Z :=
  let body := rstrip (lstrip s) in
  let parsed :=
    match body with
    | String "-" digits => Z.opp <$> unsigned_value digits
    | String "+" digits => unsigned_value digits
    | _ => unsigned_value body
    end in
  match parsed with
  | Some z => Ok z
  | None => Raise ValueError
  end.

(** [int(x)] on a float: the fractional part is dropped (rounding is
    towards zero).  A float is a rational number, so the clock reading is
    a [Q] here. *)
Definition int_of_float (x : Q) : Z := Z.quot (Qnum x) (Z.pos (Qden x)).

(** ['%s' % n] for an integer: its decimal digits, after a minus sign when
    it is negative. *)
Definition str_of_int (n : Z) : string := pretty n.

(** ** The collaborators: connection, dispatch sink, logger

    The adapter calls three methods of the client library's connection
    object: [get_nickname()], which returns the nickname the library holds
    for the connection, and [join(channel)] and [nick(newnick)], which send
    the command to the server.  The connection is therefore the nickname
    together with the commands sent so far, oldest first.  No callback of
    the adapter changes the nickname that the connection holds; the
    library itself does, when the server confirms a nickname (the welcome
    line, a NICK line), and that part of the library is not followed
    here. *)

Inductive irc_command : Type :=
| JOIN (channel : string)
| NICK (newnick : string).

Module Connection.

Record t : Type := {
  real_nickname : string;
  sent : list irc_command
}.

Definition get_nickname (c : t) : string := real_nickname c.

Definition send (cmd : irc_command) (c : t) : t :=
  {| real_nickname := real_nickname c; sent := sent c ++ [cmd] |}.

Definition join (channel : string) (c : t) : t := send (JOIN channel) c.

Definition nick (newnick : string) (c : t) : t := send (NICK newnick) c.

End Connection.

Inductive log_level : Type := DEBUG | ERROR.

(** What a callback can change: the connection, the triggers handed to the
    host's [dispatch], the lines given to the logger, and whether the bot is
    still running ([die()] leaves the process). *)
Record session : Type := {
  conn : Connection.t;
  dispatched : list (string * gmap string pyval);
  logged : list (log_level * string);
  alive : bool
}.

Definition with_conn (f : Connection.t → Connection.t) (st : session) : session :=
  {| conn := f (conn st); dispatched := dispatched st;
     logged := logged st; alive := alive st |}.

(** [self._sensor_service.dispatch(trigger=trigger, payload=payload)] *)
Definition dispatch (trigger : string) (payload : gmap string pyval)
    (st : session) : session :=
  {| conn := conn st; dispatched := dispatched st ++ [(trigger, payload)];
     logged := logged st; alive := alive st |}.

(** [self._logger.debug(msg)] and [self._logger.error(msg)] *)
Definition log (level : log_level) (msg : string) (st : session) : session :=
  {| conn := conn st; dispatched := dispatched st;
     logged := logged st ++ [(level, msg)]; alive := alive st |}.

(** [self.die()]: the bot leaves its event loop for good. *)
Definition die (st : session) : session :=
  {| conn := conn st; dispatched := dispatched st;
     logged := logged st; alive := false |}.

(** ** Events *)

Record NickMask : Type := {
  nick : string;
  host : string
}.

(** An event as the client library hands it to a callback.  The [timestamp]
    attribute does not exist until a callback of the adapter sets it. *)
Record Event : Type := {
  type : string;
  source : NickMask;
  target : string;
  arguments : list string;
  timestamp : option Z
}.

(** [event.timestamp = t] *)
Definition set_timestamp (t : Z) (e : Event) : Event :=
  {| type := type e; source := source e; target := target e;
     arguments := arguments e; timestamp := Some t |}.

(** Reading [event.timestamp]. *)
Definition get_timestamp (e : Event) : result Z :=
  match timestamp e with
  | Some t => Ok t
  | None => Raise (AttributeError "timestamp")
  end.

(** A handler of the mapping that [setup] builds: it is called with the
    connection and the event, and acts on the session. *)
Definition handler : Type := Event → session → result session.

(** [lambda connection, event: connection] *)
Definition default_handler : handler := λ _ st, Ok st.

(** [handlers.get(key, default)] *)
Definition get_handler (handlers : gmap string handler) (key : string) : handler :=
  default default_handler (handlers !! key).

(** What a callback reads from the outside world: the event, the value of
    [time.time()] and the function [random.randint]. *)
Record input : Type := {
  ev : Event;
  now : Q;
  randint : Z → Z → Z
}.

(** ** The bots *)

Inductive bot_class : Type :=
| StackStormSensorSimpleBot
| StackStormSensorSaslBot.

(** [for channel in channels]: the items of a list, the characters of a
    string. *)
Definition iter (v : cfgval) : list string :=
  match v with
  | CList l => l
  | CStr s => (λ c, String c EmptyString) <$> list_ascii_of_string s
  end.

Module Bot.

(** A bot as its constructor leaves it: the keyword arguments that go on
    to the client library, and the three attributes the adapter keeps
    (the logger is part of the session). *)
Record t : Type := {
  class : bot_class;
  server_list : list (string * Z);
  nickname : cfgval;
  realname : cfgval;
  ident_password : option cfgval;
  _channels : cfgval;
  _handlers : gmap string handler
}.

Definition on_welcome (self : t) (st : session) : session :=
  foldl (λ st channel,
           with_conn (Connection.join channel)
             (log DEBUG ("Joining #" ++ channel ++ "...") st))
        (log DEBUG "Connected to the server" st)
        (iter (_channels self)).

Definition on_nicknameinuse (self : t) (randint : Z → Z → Z)
    (st : session) : session :=
  let new_nickname :=
    Connection.get_nickname (conn st) ++ "-" ++ str_of_int (randint 1 1000) in
  with_conn (Connection.nick new_nickname) st.

(** The four message callbacks return the event as they leave it, next to
    the session. *)
Definition on_pubmsg (self : t) (now : Q) (event : Event) (st : session)
    : result (Event * session) :=
  let event := set_timestamp (int_of_float now) event in
  let handler := get_handler (_handlers self) "pubmsg" in
  st ← handler event st; Ok (event, st).

Definition on_privmsg (self : t) (now : Q) (event : Event) (st : session)
    : result (Event * session) :=
  let event := set_timestamp (int_of_float now) event in
  let handler := get_handler (_handlers self) "privmsg" in
  st ← handler event st; Ok (event, st).

Definition on_join (self : t) (now : Q) (event : Event) (st : session)
    : result (Event * session) :=
  let event := set_timestamp (int_of_float now) event in
  let handler := get_handler (_handlers self) "join" in
  st ← handler event st; Ok (event, st).

Definition on_part (self : t) (now : Q) (event : Event) (st : session)
    : result (Event * session) :=
  let event := set_timestamp (int_of_float now) event in
  let handler := get_handler (_handlers self) "part" in
  st ← handler event st; Ok (event, st).

(** [StackStormSensorSimpleBot.on_error].  The callback reads one
    attribute of the event, [event.target]: the text of the server's ERROR
    line, or [None] when the line has no text, and then the test [in]
    raises a [TypeError]. *)
Definition on_error (self : t) (target : option string) (st : session)
    : result session :=
  match target with
  | None => Raise TypeError
  | Some text =>
      if contains "SASL access only" text then
        Ok (die (log ERROR ("This server requires SASL authentication only. " ++
                            "Please register and specify both nickname:password in config file.")
                     st))
      else Ok st
  end.

(** [StackStormSensorSaslBot.on_sasl_failed] *)
Definition on_sasl_failed (self : t) (st : session) : session :=
  die (log ERROR ("SASL authentication failed! Please use correct username:password." ++
                  "Additionally, make sure you registered your nickname at IRC server.")
           st).

(** The callback of the adapter that the client library runs for an
    event: the method [on_<type>] of the bot's class when the class has
    one, and for the SASL bot the handler that it registers under the name
    ['904'], which runs for the events that the library hands over under
    that name.  The adapter has no code for any other event.  (The library
    has names of its own for the numeric replies; it hands the reply 904
    over under the name [saslfail].)  An [Event] of this development has a
    target, so [on_error] is given the text of the line here. *)
Definition react (self : t) (i : input) (st : session) : result session :=
  let e := ev i in
  if decide (type e = "welcome") then Ok (on_welcome self st)
  else if decide (type e = "nicknameinuse") then
    Ok (on_nicknameinuse self (randint i) st)
  else if decide (type e = "pubmsg") then
    r ← on_pubmsg self (now i) e st; Ok r.2
  else if decide (type e = "privmsg") then
    r ← on_privmsg self (now i) e st; Ok r.2
  else if decide (type e = "join") then
    r ← on_join self (now i) e st; Ok r.2
  else if decide (type e = "part") then
    r ← on_part self (now i) e st; Ok r.2
  else if decide (type e = "error") then
    match class self with
    | StackStormSensorSimpleBot => on_error self (Some (target e)) st
    | StackStormSensorSaslBot => Ok st
    end
  else if decide (type e = "904") then
    match class self with
    | StackStormSensorSaslBot => Ok (on_sasl_failed self st)
    | StackStormSensorSimpleBot => Ok st
    end
  else Ok st.

(** The event loop of [start()]: events are handled one after the other
    while the bot is alive; an exception of a callback ends the loop. *)
Fixpoint run (self : t) (inputs : list input) (st : session) : result session :=
  match inputs with
  | [] => Ok st
  | i :: rest =>
      if alive st then st ← react self i st; run self rest st
      else Ok st
  end.

End Bot.

(** ** The sensor *)

(** A dict literal. *)
Definition dict (items : list (string * pyval)) : gmap string pyval :=
  list_to_map items.

Module IRCSensor.

Record t : Type := {
  _server_host : string;
  _server_port : Z;
  _nickname : cfgval;
  _password : option cfgval;
  _channels : cfgval
}.

(** [config['server'].split(':')]: only a string has a [split]. *)
Definition split_server (server : cfgval) : result (list string) :=
  match server with
  | CStr s => Ok (split ":" s)
  | CList _ => Raise (AttributeError "split")
  end.

(** The constructor, given the builtin [int]. *)
Definition __init__ (int : string → result Z) (config : gmap string cfgval)
    : result t :=
  server ← getitem config "server";
  split ← split_server server;
  server_host ← list_getitem split 0;
  port ← list_getitem split 1;
  server_port ← int port;
  nickname ← getitem config "nickname";
  let password := config !! "password" in
  channels ← getitem config "channels";
  Ok {| _server_host := server_host;
        _server_port := server_port;
        _nickname := nickname;
        _password := password;
        _channels := channels |}.

Definition _handle_pubmsg : handler := λ event st,
  let trigger := "irc.pubmsg" in
  timestamp ← get_timestamp event;
  message ← list_getitem (arguments event) 0;
  let payload := dict [
    ("source", PDict (dict [
       ("nick", PStr (nick (source event)));
       ("host", PStr (host (source event)))]));
    ("channel", PStr (target event));
    ("timestamp", PInt timestamp);
    ("message", PStr message)] in
  Ok (dispatch trigger payload st).

Definition _handle_privmsg : handler := λ event st,
  let trigger := "irc.privmsg" in
  timestamp ← get_timestamp event;
  message ← list_getitem (arguments event) 0;
  let payload := dict [
    ("source", PDict (dict [
       ("nick", PStr (nick (source event)));
       ("host", PStr (host (source event)))]));
    ("timestamp", PInt timestamp);
    ("message", PStr message)] in
  Ok (dispatch trigger payload st).

Definition _handle_join : handler := λ event st,
  let trigger := "irc.join" in
  timestamp ← get_timestamp event;
  let payload := dict [
    ("source", PDict (dict [
       ("nick", PStr (nick (source event)));
       ("host", PStr (host (source event)))]));
    ("timestamp", PInt timestamp);
    ("channel", PStr (target event))] in
  Ok (dispatch trigger payload st).

Definition _handle_part : handler := λ event st,
  let trigger := "irc.part" in
  timestamp ← get_timestamp event;
  let payload := dict [
    ("source", PDict (dict [
       ("nick", PStr (nick (source event)));
       ("host", PStr (host (source event)))]));
    ("timestamp", PInt timestamp);
    ("channel", PStr (target event))] in
  Ok (dispatch trigger payload st).

Definition handlers : gmap string handler :=
  list_to_map [
    ("pubmsg", _handle_pubmsg);
    ("privmsg", _handle_privmsg);
    ("join", _handle_join);
    ("part", _handle_part)].

(** [setup]: the bot it assigns to [self._bot]. *)
Definition setup (self : t) : Bot.t :=
  if truthy_opt (_password self) then
    {| Bot.class := StackStormSensorSaslBot;
       Bot.server_list := [(_server_host self, _server_port self)];
       Bot.nickname := _nickname self;
       Bot.realname := _nickname self;
       Bot.ident_password := _password self;
       Bot._channels := _channels self;
       Bot._handlers := handlers |}
  else
    {| Bot.class := StackStormSensorSimpleBot;
       Bot.server_list := [(_server_host self, _server_port self)];
       Bot.nickname := _nickname self;
       Bot.realname := _nickname self;
       Bot.ident_password := None;
       Bot._channels := _channels self;
       Bot._handlers := handlers |}.

(** What the host does with a configuration: it constructs the sensor and
    then calls [setup]. *)
Definition build (int : string → result Z) (config : gmap string cfgval)
    : result Bot.t :=
  self ← __init__ int config; Ok (setup self).

End IRCSensor.

(** ** The four kinds of event that become triggers *)

Inductive kind : Type := pubmsg | privmsg | join | part.

(** The value of [event.type] for a kind. *)
Definition kind_name (k : kind) : string :=
  match k with
  | pubmsg => "pubmsg"
  | privmsg => "privmsg"
  | join => "join"
  | part => "part"
  end.

(** The callback of the bot for a kind. *)
Definition callback (k : kind) : Bot.t → Q → Event → session → result (Event * session) :=
  match k with
  | pubmsg => Bot.on_pubmsg
  | privmsg => Bot.on_privmsg
  | join => Bot.on_join
  | part => Bot.on_part
  end.

(** The contract of the event normalizer, one row per kind: the name of the
    trigger and the keys of the payload. *)
Definition trigger_name (k : kind) : string :=
  match k with
  | pubmsg => "irc.pubmsg"
  | privmsg => "irc.privmsg"
  | join => "irc.join"
  | part => "irc.part"
  end.

Definition payload_fields (k : kind) : gset string :=
  match k with
  | pubmsg => {[ "source"; "channel"; "timestamp"; "message" ]}
  | privmsg => {[ "source"; "timestamp"; "message" ]}
  | join => {[ "source"; "channel"; "timestamp" ]}
  | part => {[ "source"; "channel"; "timestamp" ]}
  end.

(** The kinds whose payload has a [message], which the handler reads from
    [event.arguments[0]]: an event of such a kind carries its text there. *)
Definition has_text (k : kind) (e : Event) : Prop :=
  match k with
  | pubmsg | privmsg => arguments e ≠ []
  | join | part => True
  end.

(** The contract on a payload [p] made for an event [e] of kind [k] that was
    stamped with time [t]: the keys of [p] are those of the row of [k] and
    no others, [source] is a dict with the keys [nick] and [host] and no
    others, and every value is the one of the event. *)
Definition table_row (k : kind) (e : Event) (t : Z) (p : gmap string pyval) : Prop :=
  dom p = payload_fields k ∧
  (∃ src : gmap string pyval,
     p !! "source" = Some (PDict src) ∧
     dom src = {[ "nick"; "host" ]} ∧
     src !! "nick" = Some (PStr (nick (source e))) ∧
     src !! "host" = Some (PStr (host (source e)))) ∧
  p !! "timestamp" = Some (PInt t) ∧
  ("channel" ∈ payload_fields k → p !! "channel" = Some (PStr (target e))) ∧
  ("message" ∈ payload_fields k → p !! "message" = PStr <$> head (arguments e)).

(** A server string of the form [host:port] with an integer port: the text
    after one of its colons is an integer for [int]. *)
Fixpoint is_host_port (int : string → result Z) (server : string) : bool :=
  match server with
  | EmptyString => false
  | String c rest =>
      (Ascii.eqb c ":" && (if int rest is Ok _ then true else false))
      || is_host_port int rest
  end.

(** A configuration entry that is not empty. *)
Definition nonempty (v : cfgval) : Prop :=
  match v with
  | CStr s => s ≠ ""
  | CList l => l ≠ []
  end.

(** ** Sample data: the scenarios of the specification *)

Definition fresh_session (nickname : string) : session :=
  {| conn := {| Connection.real_nickname := nickname; Connection.sent := [] |};
     dispatched := []; logged := []; alive := true |}.

Definition ops_config : gmap string cfgval :=
  list_to_map [
    ("server", CStr "irc.example.org:6697");
    ("nickname", CStr "bot1");
    ("channels", CList ["#ops"])].

Definition secret_config : gmap string cfgval :=
  <["password" := CStr "hunter2"]> ops_config.

Definition ops_sensor : IRCSensor.t :=
  {| IRCSensor._server_host := "irc.example.org";
     IRCSensor._server_port := 6697;
     IRCSensor._nickname := CStr "bot1";
     IRCSensor._password := None;
     IRCSensor._channels := CList ["#ops"] |}.

Definition secret_sensor : IRCSensor.t :=
  {| IRCSensor._server_host := "irc.example.org";
     IRCSensor._server_port := 6697;
     IRCSensor._nickname := CStr "bot1";
     IRCSensor._password := Some (CStr "hunter2");
     IRCSensor._channels := CList ["#ops"] |}.

Definition nobody : NickMask := {| nick := ""; host := "" |}.

Definition server_event (type target : string) : Event :=
  {| type := type; source := nobody; target := target;
     arguments := []; timestamp := None |}.

Definition alice_says : Event :=
  {| type := "pubmsg";
     source := {| nick := "alice"; host := "alice@host" |};
     target := "#ops";
     arguments := ["deploy v2"];
     timestamp := None |}.

(** A bot whose handler mapping is empty. *)
Definition deaf_bot : Bot.t :=
  {| Bot.class := StackStormSensorSimpleBot;
     Bot.server_list := [("irc.example.org", 6697)];
     Bot.nickname := CStr "bot1";
     Bot.realname := CStr "bot1";
     Bot.ident_password := None;
     Bot._channels := CList ["#ops"];
     Bot._handlers := ∅ |}.

(** The reply 904 of a server, as the client library hands it over: under
    the name that its table of numeric replies has for 904. *)
Definition sasl_failure_reply (target : string) : Event :=
  server_event "saslfail" target.


(** An input whose clock reads [t] and whose [randint a b] returns [r],
    brought into the range from [a] to [b]. *)
Definition input_at (e : Event) (t : Q) (r : Z) : input :=
  {| ev := e; now := t; randint := λ a b, Z.max a (Z.min b r) |}.

(** The event that a bot has a fatal callback for: for the SASL bot an
    event under the name "904", for which it registers [on_sasl_failed];
    for the other bot an error notice with the text "SASL access only". *)
Definition fatal (self : Bot.t) (e : Event) : Prop :=
  match Bot.class self with
  | StackStormSensorSaslBot => type e = "904"
  | StackStormSensorSimpleBot =>
      type e = "error" ∧ contains "SASL access only" (target e) = true
  end.

(** An event of one of the four kinds that carries what its handler
    reads. *)
Definition is_message (i : input) : Prop :=
  ∃ k : kind, type (ev i) = kind_name k ∧ has_text k (ev i).

(** The trigger [tr] is the one of the input [i]: it has the name of the
    kind of the event, and its payload meets the contract of the kind. *)
Definition trigger_of (i : input) (tr : string * gmap string pyval) : Prop :=
  ∃ k : kind,
    type (ev i) = kind_name k ∧
    tr.1 = trigger_name k ∧
    table_row k (ev i) (int_of_float (now i)) tr.2.

(** The [server] entry of a configuration can be read: it is a string with
    a second field between colons, and that field is an integer literal. *)
Definition server_parses (int : string → result Z)
    (config : gmap string cfgval) : Prop :=
  ∃ (server port : string) (z : Z),
    config !! "server" = Some (CStr server) ∧
    split ":" server !! 1%nat = Some port ∧
    int port = Ok z.

(** The handler that [setup] maps to a kind. *)
Definition handler_of (k : kind) : handler :=
  match k with
  | pubmsg => IRCSensor._handle_pubmsg
  | privmsg => IRCSensor._handle_privmsg
  | join => IRCSensor._handle_join
  | part => IRCSensor._handle_part
  end.

(** * Properties *)

(** ** Evaluation of the string operations *)
Example split_host_port : split ":" "irc.example.org:6697" = ["irc.example.org"; "6697"].
Proof. reflexivity. Qed.
Example split_no_separator : split ":" "localhost" = ["localhost"].
Proof. reflexivity. Qed.
Example split_three_fields : split ":" "a:80:b" = ["a"; "80"; "b"].
Proof. reflexivity. Qed.
Example split_empty_fields : split ":" "::1" = [""; ""; "1"].
Proof. reflexivity. Qed.
Example int_of_str_signed : int_of_str " +6697 " = Ok 6697.
Proof. reflexivity. Qed.
Example int_of_str_negative : int_of_str "-12" = Ok (-12).
Proof. reflexivity. Qed.
Example int_of_str_letter : int_of_str "66a7" = Raise ValueError.
Proof. reflexivity. Qed.
Example int_of_str_empty : int_of_str "" = Raise ValueError.
Proof. reflexivity. Qed.
Example int_of_str_sign_only : int_of_str "+" = Raise ValueError.
Proof. reflexivity. Qed.
Example int_of_float_positive : int_of_float (3 # 2) = 1.
Proof. reflexivity. Qed.
Example int_of_float_negative : int_of_float (-3 # 2) = -1.
Proof. reflexivity. Qed.
Example str_of_int_1000 : str_of_int 1000 = "1000".
Proof. reflexivity. Qed.
Example contains_inside : contains "SASL access only" "Closing link: SASL access only" = true.
Proof. reflexivity. Qed.
Example contains_absent : contains "SASL access only" "Closing link" = false.
Proof. reflexivity. Qed.
Example contains_empty : contains "" "" = true.
Proof. reflexivity. Qed.

(** ** The error monad *)

Lemma bind_Ok {A B : Type} (r : result A) (k : A → result B) (b : B) :
  r ≫= k = Ok b ↔ ∃ a, r = Ok a ∧ k a = Ok b.
Proof.
  destruct r as [a|e]; simpl; split.
  - intros H. by exists a.
  - by intros (a' & [= <-] & H).
  - intros H. discriminate H.
  - intros (a' & H & _). discriminate H.
Qed.

Lemma getitem_Ok {V : Type} (d : gmap string V) (key : string) (v : V) :
  getitem d key = Ok v ↔ d !! key = Some v.
Proof.
  unfold getitem. destruct (d !! key) as [v'|]; split; intros H;
    try discriminate H; by simplify_eq.
Qed.

(** ** [setup] *)

Lemma setup_handlers (self : IRCSensor.t) :
  Bot._handlers (IRCSensor.setup self) = IRCSensor.handlers.
Proof. unfold IRCSensor.setup. by destruct (truthy_opt _). Qed.

Lemma setup_channels (self : IRCSensor.t) :
  Bot._channels (IRCSensor.setup self) = IRCSensor._channels self.
Proof. unfold IRCSensor.setup. by destruct (truthy_opt _). Qed.

Lemma setup_class (self : IRCSensor.t) :
  Bot.class (IRCSensor.setup self) =
    if truthy_opt (IRCSensor._password self) then StackStormSensorSaslBot
    else StackStormSensorSimpleBot.
Proof. unfold IRCSensor.setup. by destruct (truthy_opt _). Qed.

Lemma handlers_lookup (k : kind) :
  IRCSensor.handlers !! kind_name k =
    Some match k with
         | pubmsg => IRCSensor._handle_pubmsg
         | privmsg => IRCSensor._handle_privmsg
         | join => IRCSensor._handle_join
         | part => IRCSensor._handle_part
         end.
Proof. by destruct k. Qed.

(** The dispatcher runs the callback of the event's kind. *)
Lemma react_kind (k : kind) (self : Bot.t) (i : input) (st : session) :
  type (ev i) = kind_name k →
  Bot.react self i st = (callback k self (now i) (ev i) st ≫= λ r, Ok r.2).
Proof.
  intros Hk. unfold Bot.react. rewrite Hk.
  destruct k; simpl; repeat case_decide; done.
Qed.

(** ** Trigger payloads *)

(** Looks the handler of kind [k] up in the mapping of [setup]. *)
Ltac lookup_handler k :=
  unfold get_handler; rewrite ?setup_handlers;
  let H := fresh in
  pose proof (handlers_lookup k) as H; simpl in H; rewrite H; clear H; simpl.

(** An event that lacks its text makes the handler raise: nothing is
    dispatched for it. *)
Lemma pubmsg_without_text (self : IRCSensor.t) (now : Q) (e : Event) (st : session) :
  arguments e = [] →
  Bot.on_pubmsg (IRCSensor.setup self) now e st = Raise IndexError.
Proof.
  intros Hargs. unfold Bot.on_pubmsg. lookup_handler pubmsg.
  unfold IRCSensor._handle_pubmsg, get_timestamp. simpl. by rewrite Hargs.
Qed.

(** C1. For an event of kind pubmsg, privmsg, join or part (one of the two
    message kinds carrying its text as first argument), the bot that
    [setup] builds dispatches exactly one trigger, named after the kind; the
    keys of its payload are exactly those of the kind's row in the table,
    the keys of the nested [source] are exactly [nick] and [host], and the
    values are the ones of the event: the source's nick and host, the
    target as [channel], the first argument as [message], the stamped
    time as [timestamp]. *)
Theorem payload_has_exactly_the_fields_of_its_kind
    (k : kind) (self : IRCSensor.t) (i : input) (st : session) :
  type (ev i) = kind_name k →
  has_text k (ev i) →
  ∃ payload : gmap string pyval,
    Bot.react (IRCSensor.setup self) i st
      = Ok (dispatch (trigger_name k) payload st) ∧
    table_row k (ev i) (int_of_float (now i)) payload.
Proof.
  intros Hk Htext. rewrite (react_kind k) by done.
  destruct i as [e t rnd]. simpl in *. clear Hk. unfold table_row.
  destruct k; simpl in *;
    unfold Bot.on_pubmsg, Bot.on_privmsg, Bot.on_join, Bot.on_part;
    [ lookup_handler pubmsg | lookup_handler privmsg
    | lookup_handler join | lookup_handler part ];
    unfold IRCSensor._handle_pubmsg, IRCSensor._handle_privmsg,
      IRCSensor._handle_join, IRCSensor._handle_part; simpl;
    try (destruct (arguments e) as [|m rest]; [done|]); simpl;
    eexists; (split; [reflexivity|]);
    (split; [vm_compute; reflexivity|]);
    (split; [eexists; repeat split; vm_compute; reflexivity|]);
    (split; [vm_compute; reflexivity|]);
    split; try (vm_compute; reflexivity);
    intros Hin; exfalso; revert Hin; vm_compute; set_solver.
Qed.

(** The scenario of the specification: alice says "deploy v2" on #ops. *)
Lemma alice_says_deploy :
  ∃ payload : gmap string pyval,
    Bot.react (IRCSensor.setup ops_sensor)
        (input_at alice_says (1700000000 # 1) 1) (fresh_session "bot1")
      = Ok (dispatch (trigger_name pubmsg) payload (fresh_session "bot1")) ∧
    table_row pubmsg alice_says 1700000000 payload.
Proof.
  apply (payload_has_exactly_the_fields_of_its_kind pubmsg ops_sensor
           (input_at alice_says (1700000000 # 1) 1) (fresh_session "bot1")).
  - reflexivity.
  - discriminate.
Defined.

Example alice_says_deploy_dispatched :
  Bot.react (IRCSensor.setup ops_sensor)
      (input_at alice_says (1700000000 # 1) 1) (fresh_session "bot1")
    = Ok (dispatch "irc.pubmsg"
            (dict [("source", PDict (dict [("nick", PStr "alice");
                                           ("host", PStr "alice@host")]));
                   ("channel", PStr "#ops");
                   ("timestamp", PInt 1700000000);
                   ("message", PStr "deploy v2")])
            (fresh_session "bot1")).
Proof. vm_compute. reflexivity. Qed.

(** ** Kinds without a handler *)





(** ** Timestamps *)

(** On a clock that is not negative, [int] rounds down. *)
Lemma int_of_float_floor (x : Q) : (0 <= x)%Q → int_of_float x = Qfloor x.
Proof.
  destruct x as [n d]. unfold Qle, int_of_float, Qfloor. simpl.
  intros Hn. apply Z.quot_div_nonneg; lia.
Qed.

Lemma int_of_float_bounds (x : Q) :
  (0 <= x)%Q →
  (inject_Z (int_of_float x) <= x)%Q ∧ (x < inject_Z (int_of_float x + 1))%Q.
Proof.
  intros Hx. rewrite (int_of_float_floor x Hx). split.
  - apply Qfloor_le.
  - apply Qlt_floor.
Qed.

Lemma int_of_float_mono (x y : Q) :
  (0 <= x)%Q → (x <= y)%Q → int_of_float x <= int_of_float y.
Proof.
  intros Hx Hxy.
  rewrite (int_of_float_floor x Hx).
  rewrite (int_of_float_floor y) by (eapply Qle_trans; eassumption).
  by apply Qfloor_resp_le.
Qed.

(** The callbacks stamp the event with the clock reading cut down to whole
    seconds, whatever the handler does next. *)
Lemma callback_stamps (k : kind) (self : Bot.t) (now : Q) (e e' : Event)
    (st st' : session) :
  callback k self now e st = Ok (e', st') →
  e' = set_timestamp (int_of_float now) e.
Proof.
  destruct k; simpl;
    unfold Bot.on_pubmsg, Bot.on_privmsg, Bot.on_join, Bot.on_part;
    intros H; apply bind_Ok in H as (st'' & _ & H); by simplify_eq.
Qed.

(** C4, as the code has it.  The timestamp attached to the event, and put
    in the payload, is the reading [now] that the callback takes of the
    adapter's clock, cut down to whole seconds: an integer [t] with
    [t <= now < t + 1].  It is at least the time of receipt counted in whole
    seconds, since the clock is read after the event is received. *)
Theorem timestamp_is_clock_in_whole_seconds
    (k : kind) (self : IRCSensor.t) (now received : Q) (e : Event) (st : session) :
  has_text k e →
  (0 <= received)%Q →
  (received <= now)%Q →
  ∃ (t : Z) (e' : Event) (payload : gmap string pyval),
    callback k (IRCSensor.setup self) now e st
      = Ok (e', dispatch (trigger_name k) payload st) ∧
    timestamp e' = Some t ∧
    payload !! "timestamp" = Some (PInt t) ∧
    t = int_of_float now ∧
    (inject_Z t <= now)%Q ∧
    (now < inject_Z (t + 1))%Q ∧
    int_of_float received <= t.
Proof.
  intros Htext Hrecv Hnow.
  assert (0 <= now)%Q as Hpos by (eapply Qle_trans; eassumption).
  destruct (int_of_float_bounds now Hpos) as [Hlo Hhi].
  pose proof (int_of_float_mono received now Hrecv Hnow) as Hmono.
  exists (int_of_float now), (set_timestamp (int_of_float now) e).
  destruct k; simpl in *;
    unfold Bot.on_pubmsg, Bot.on_privmsg, Bot.on_join, Bot.on_part;
    [ lookup_handler pubmsg | lookup_handler privmsg
    | lookup_handler join | lookup_handler part ];
    unfold IRCSensor._handle_pubmsg, IRCSensor._handle_privmsg,
      IRCSensor._handle_join, IRCSensor._handle_part; simpl;
    try (destruct (arguments e) as [|m rest]; [done|]); simpl;
    eexists; (split; [reflexivity|]);
    (split; [reflexivity|]);
    (split; [vm_compute; reflexivity|]);
    done.
Qed.

Lemma alice_stamped_in_whole_seconds :
  ∃ (t : Z) (e' : Event) (payload : gmap string pyval),
    callback pubmsg (IRCSensor.setup ops_sensor) (3 # 2) alice_says
        (fresh_session "bot1")
      = Ok (e', dispatch (trigger_name pubmsg) payload (fresh_session "bot1")) ∧
    timestamp e' = Some t ∧
    payload !! "timestamp" = Some (PInt t) ∧
    t = int_of_float (3 # 2) ∧
    (inject_Z t <= 3 # 2)%Q ∧
    (3 # 2 < inject_Z (t + 1))%Q ∧
    int_of_float (5 # 4) <= t.
Proof.
  apply (timestamp_is_clock_in_whole_seconds pubmsg ops_sensor
           (3 # 2) (5 # 4) alice_says (fresh_session "bot1")).
  - discriminate.
  - discriminate.
  - discriminate.
Defined.

(** C4, as it is stated, fails: the event that alice sends is received and
    handled when the clock reads 1.5 s, and it is stamped 1, which is
    before its receipt. *)
Lemma timestamp_before_receipt :
  ∃ (e' : Event) (st' : session),
    Bot.on_pubmsg (IRCSensor.setup ops_sensor) (3 # 2) alice_says
        (fresh_session "bot1") = Ok (e', st') ∧
    timestamp e' = Some 1 ∧
    (inject_Z 1 < 3 # 2)%Q.
Proof.
  eexists _, _. split; [|split].
  - vm_compute. reflexivity.
  - reflexivity.
  - reflexivity.
Qed.

(** ** Nickname collisions *)

Lemma react_nicknameinuse (self : Bot.t) (i : input) (st : session) :
  type (ev i) = "nicknameinuse" →
  Bot.react self i st = Ok (Bot.on_nicknameinuse self (randint i) st).
Proof. intros Ht. unfold Bot.react. rewrite Ht. by repeat case_decide. Qed.

(** C5. When the nickname is reported in use, the adapter sends one NICK
    command; the nickname it asks for is the current nickname of the
    connection, then ['-'], then the decimal digits of the integer that
    [randint(1, 1000)] returned, which lies between 1 and 1000.  Nothing
    else of the session changes. *)
Theorem nickname_in_use_requests_suffixed_nickname
    (self : Bot.t) (i : input) (st : session) :
  type (ev i) = "nicknameinuse" →
  (∀ a b : Z, a ≤ b → a ≤ randint i a b ≤ b) →
  ∃ (n : Z) (st' : session),
    1 ≤ n ≤ 1000 ∧
    Bot.react self i st = Ok st' ∧
    Connection.sent (conn st')
      = (Connection.sent (conn st)
          ++ [NICK (Connection.get_nickname (conn st) ++ "-" ++ str_of_int n)%string])%list ∧
    Connection.get_nickname (conn st') = Connection.get_nickname (conn st) ∧
    dispatched st' = dispatched st ∧
    logged st' = logged st ∧
    alive st' = alive st.
Proof.
  intros Ht Hrange. exists (randint i 1 1000). eexists.
  split; [apply Hrange; lia|].
  split; [by apply react_nicknameinuse|].
  by repeat split.
Qed.

Lemma bot1_in_use :
  ∃ (n : Z) (st' : session),
    1 ≤ n ≤ 1000 ∧
    Bot.react deaf_bot (input_at (server_event "nicknameinuse" "*") 0 7)
        (fresh_session "bot1") = Ok st' ∧
    Connection.sent (conn st')
      = (Connection.sent (conn (fresh_session "bot1"))
          ++ [NICK (Connection.get_nickname (conn (fresh_session "bot1"))
                      ++ "-" ++ str_of_int n)%string])%list ∧
    Connection.get_nickname (conn st')
      = Connection.get_nickname (conn (fresh_session "bot1")) ∧
    dispatched st' = dispatched (fresh_session "bot1") ∧
    logged st' = logged (fresh_session "bot1") ∧
    alive st' = alive (fresh_session "bot1").
Proof.
  apply (nickname_in_use_requests_suffixed_nickname deaf_bot
           (input_at (server_event "nicknameinuse" "*") 0 7)
           (fresh_session "bot1")).
  - reflexivity.
  - intros a b Hab. simpl. lia.
Defined.

Example bot1_in_use_asks_for_bot1_7 :
  Bot.react deaf_bot (input_at (server_event "nicknameinuse" "*") 0 7)
      (fresh_session "bot1")
    = Ok (with_conn (Connection.nick "bot1-7") (fresh_session "bot1")).
Proof. reflexivity. Qed.

(** A nickname with a suffix is never the nickname itself. *)
Lemma append_nonempty_ne (s : string) (c : ascii) (t : string) :
  (s ++ String c t)%string ≠ s.
Proof.
  induction s as [|a s IH]; simpl.
  - discriminate.
  - intros [= H]. by apply IH.
Qed.

Lemma suffixed_eq_iff (base : string) (m n : Z) :
  (base ++ "-" ++ str_of_int m)%string = (base ++ "-" ++ str_of_int n)%string
  ↔ m = n.
Proof.
  split; [|by intros ->].
  intros H. apply (inj (String.app base)) in H.
  apply (inj (String.app "-")) in H. unfold str_of_int in H.
  by apply (inj (pretty : Z → string)) in H.
Qed.

(** C6, as it is stated, fails.  The nickname bot1 is in use and [randint]
    returns 5: the adapter asks for bot1-5.  That nickname is in use too,
    and [randint] returns 5 again: the adapter asks for bot1-5, the
    nickname that was just rejected. *)
Lemma rejected_nickname_requested_again :
  ∃ st' : session,
    Bot.run deaf_bot
        [input_at (server_event "nicknameinuse" "*") 0 5;
         input_at (server_event "nicknameinuse" "*") 0 5]
        (fresh_session "bot1") = Ok st' ∧
    Connection.sent (conn st') = [NICK "bot1-5"; NICK "bot1-5"].
Proof. eexists. split; reflexivity. Qed.

(** C6, as the code has it.  Over two collisions in a row the adapter sends
    two NICK commands.  Each nickname it asks for differs from the
    nickname that the connection holds, which both are built from; the two
    are the same string exactly when [randint(1, 1000)] returned the same
    integer both times. *)
Theorem consecutive_collisions_draw_afresh
    (self : Bot.t) (i1 i2 : input) (st : session) :
  alive st = true →
  type (ev i1) = "nicknameinuse" →
  type (ev i2) = "nicknameinuse" →
  ∃ (n1 n2 : string) (st' : session),
    Bot.run self [i1; i2] st = Ok st' ∧
    Connection.sent (conn st') = (Connection.sent (conn st) ++ [NICK n1; NICK n2])%list ∧
    n1 = (Connection.get_nickname (conn st) ++ "-" ++ str_of_int (randint i1 1 1000))%string ∧
    n2 = (Connection.get_nickname (conn st) ++ "-" ++ str_of_int (randint i2 1 1000))%string ∧
    n1 ≠ Connection.get_nickname (conn st) ∧
    n2 ≠ Connection.get_nickname (conn st) ∧
    (n1 = n2 ↔ randint i1 1 1000 = randint i2 1 1000).
Proof.
  intros Halive Ht1 Ht2. eexists _, _, _.
  split.
  { simpl. rewrite Halive, (react_nicknameinuse _ _ _ Ht1). simpl.
    rewrite Halive, (react_nicknameinuse _ _ _ Ht2). reflexivity. }
  split; [by simpl; rewrite <- app_assoc|].
  split; [reflexivity|]. split; [reflexivity|].
  split; [apply append_nonempty_ne|].
  split; [apply append_nonempty_ne|].
  apply suffixed_eq_iff.
Qed.

Lemma two_collisions_of_bot1 :
  ∃ (n1 n2 : string) (st' : session),
    Bot.run deaf_bot
        [input_at (server_event "nicknameinuse" "*") 0 5;
         input_at (server_event "nicknameinuse" "*") 0 812]
        (fresh_session "bot1") = Ok st' ∧
    Connection.sent (conn st')
      = (Connection.sent (conn (fresh_session "bot1")) ++ [NICK n1; NICK n2])%list ∧
    n1 = (Connection.get_nickname (conn (fresh_session "bot1")) ++ "-"
            ++ str_of_int (randint (input_at (server_event "nicknameinuse" "*") 0 5) 1 1000))%string ∧
    n2 = (Connection.get_nickname (conn (fresh_session "bot1")) ++ "-"
            ++ str_of_int (randint (input_at (server_event "nicknameinuse" "*") 0 812) 1 1000))%string ∧
    n1 ≠ Connection.get_nickname (conn (fresh_session "bot1")) ∧
    n2 ≠ Connection.get_nickname (conn (fresh_session "bot1")) ∧
    (n1 = n2 ↔ randint (input_at (server_event "nicknameinuse" "*") 0 5) 1 1000
               = randint (input_at (server_event "nicknameinuse" "*") 0 812) 1 1000).
Proof.
  apply (consecutive_collisions_draw_afresh deaf_bot
           (input_at (server_event "nicknameinuse" "*") 0 5)
           (input_at (server_event "nicknameinuse" "*") 0 812)
           (fresh_session "bot1")).
  - reflexivity.
  - reflexivity.
  - reflexivity.
Defined.

(** ** The welcome event *)

(** The loop of [on_welcome], from any session. *)
Lemma join_all_sent (channels : list string) (st : session) :
  let st' :=
    foldl (λ st channel,
             with_conn (Connection.join channel)
               (log DEBUG ("Joining #" ++ channel ++ "...") st))
          st channels in
  Connection.sent (conn st')
    = (Connection.sent (conn st) ++ (JOIN <$> channels))%list ∧
  Connection.get_nickname (conn st') = Connection.get_nickname (conn st) ∧
  dispatched st' = dispatched st ∧
  alive st' = alive st.
Proof.
  revert st. induction channels as [|channel channels IH]; intros st; simpl.
  - by rewrite app_nil_r.
  - match goal with
    | |- context [foldl _ ?s channels] =>
        destruct (IH s) as (Hsent & Hnick & Hdisp & Halive)
    end.
    simpl in *. rewrite Hsent, Hnick, Hdisp, Halive.
    by rewrite <- app_assoc.
Qed.

(** C7. On the welcome event the session sends one JOIN for every channel
    of the configured list, in the order of the list, and nothing else; it
    dispatches no trigger and stays alive. *)
Theorem welcome_joins_every_channel
    (self : Bot.t) (i : input) (st : session) (channels : list string) :
  type (ev i) = "welcome" →
  Bot._channels self = CList channels →
  ∃ st' : session,
    Bot.react self i st = Ok st' ∧
    Connection.sent (conn st')
      = (Connection.sent (conn st) ++ (JOIN <$> channels))%list ∧
    dispatched st' = dispatched st ∧
    alive st' = alive st.
Proof.
  intros Ht Hch. exists (Bot.on_welcome self st). split.
  - unfold Bot.react. rewrite Ht. by case_decide.
  - unfold Bot.on_welcome. rewrite Hch. simpl.
    destruct (join_all_sent channels (log DEBUG "Connected to the server" st))
      as (Hsent & _ & Hdisp & Halive).
    simpl in *. by rewrite Hsent, Hdisp, Halive.
Qed.

(** The scenario of the specification: no password, one channel. *)
Example ops_config_builds_simple_bot :
  IRCSensor.build int_of_str ops_config = Ok (IRCSensor.setup ops_sensor) ∧
  Bot.class (IRCSensor.setup ops_sensor) = StackStormSensorSimpleBot.
Proof. split; reflexivity. Qed.

Lemma welcome_joins_ops :
  ∃ st' : session,
    Bot.react (IRCSensor.setup ops_sensor)
        (input_at (server_event "welcome" "bot1") 0 1) (fresh_session "bot1")
      = Ok st' ∧
    Connection.sent (conn st')
      = (Connection.sent (conn (fresh_session "bot1")) ++ (JOIN <$> ["#ops"]))%list ∧
    dispatched st' = dispatched (fresh_session "bot1") ∧
    alive st' = alive (fresh_session "bot1").
Proof.
  apply (welcome_joins_every_channel (IRCSensor.setup ops_sensor)
           (input_at (server_event "welcome" "bot1") 0 1)
           (fresh_session "bot1") ["#ops"]).
  - reflexivity.
  - reflexivity.
Defined.

(** ** Construction of the bot *)

Lemma truthy_nonempty (v : cfgval) : truthy v = true ↔ nonempty v.
Proof.
  destruct v as [s|l]; simpl.
  - rewrite negb_true_iff, String.eqb_neq. done.
  - destruct l; split; done.
Qed.

(** What [__init__] keeps of a configuration it accepts. *)
Lemma init_Ok (int : string → result Z) (config : gmap string cfgval)
    (self : IRCSensor.t) :
  IRCSensor.__init__ int config = Ok self →
  config !! "nickname" = Some (IRCSensor._nickname self) ∧
  config !! "password" = IRCSensor._password self ∧
  config !! "channels" = Some (IRCSensor._channels self) ∧
  ∃ (server : string) (port : string),
    config !! "server" = Some (CStr server) ∧
    split ":" server !! 0%nat = Some (IRCSensor._server_host self) ∧
    split ":" server !! 1%nat = Some port ∧
    int port = Ok (IRCSensor._server_port self).
Proof.
  unfold IRCSensor.__init__. intros H.
  apply bind_Ok in H as (server & Hserver & H).
  apply bind_Ok in H as (fields & Hfields & H).
  apply bind_Ok in H as (server_host & Hhost & H).
  apply bind_Ok in H as (port & Hport & H).
  apply bind_Ok in H as (server_port & Hint & H).
  apply bind_Ok in H as (nickname & Hnick & H).
  apply bind_Ok in H as (channels & Hchan & H).
  injection H as <-. simpl.
  apply getitem_Ok in Hserver, Hnick, Hchan.
  destruct server as [server|l]; simpl in Hfields; [|discriminate].
  injection Hfields as <-.
  unfold list_getitem in Hhost, Hport.
  destruct (split ":" server !! 0%nat) as [h|] eqn:Eh; [|discriminate].
  destruct (split ":" server !! 1%nat) as [p|] eqn:Ep; [|discriminate].
  simplify_eq. repeat split; try done. by exists server, port.
Qed.

Lemma build_Ok (int : string → result Z) (config : gmap string cfgval)
    (bot : Bot.t) :
  IRCSensor.build int config = Ok bot ↔
  ∃ self, IRCSensor.__init__ int config = Ok self ∧ bot = IRCSensor.setup self.
Proof.
  unfold IRCSensor.build. rewrite bind_Ok. split.
  - intros (self & H & [= <-]). by exists self.
  - intros (self & H & ->). by exists self.
Qed.

(** C2. For every configuration from which a bot is built, [setup] builds
    the SASL bot if and only if the configuration has a [password] that is
    not empty, and it hands that password to the bot; it builds the bot
    without authentication if and only if the [password] is absent or
    empty. *)
Theorem sasl_iff_password (int : string → result Z)
    (config : gmap string cfgval) (bot : Bot.t) :
  IRCSensor.build int config = Ok bot →
  (Bot.class bot = StackStormSensorSaslBot ↔
     ∃ p, config !! "password" = Some p ∧ nonempty p) ∧
  (Bot.class bot = StackStormSensorSimpleBot ↔
     config !! "password" = None ∨
     ∃ p, config !! "password" = Some p ∧ ¬ nonempty p) ∧
  (Bot.class bot = StackStormSensorSaslBot →
     Bot.ident_password bot = config !! "password").
Proof.
  intros (self & Hinit & ->)%build_Ok.
  apply init_Ok in Hinit as (_ & Hpw & _). rewrite Hpw.
  unfold IRCSensor.setup.
  destruct (IRCSensor._password self) as [p|]; simpl.
  - pose proof (truthy_nonempty p) as Hp.
    destruct (truthy p); simpl; repeat split; try done.
    + intros _. exists p. split; [done|]. by apply Hp.
    + intros [?|(p' & [= <-] & Hne)]; [done|]. destruct Hne. by apply Hp.
    + intros (p' & [= <-] & Hne). apply Hp in Hne. done.
    + intros _. right. exists p. split; [done|]. intros Hne.
      apply Hp in Hne. done.
  - repeat split; try done.
    + intros (p & ? & _). done.
    + intros _. by left.
Qed.

Lemma secret_config_builds_sasl_bot :
  (Bot.class (IRCSensor.setup secret_sensor) = StackStormSensorSaslBot ↔
     ∃ p, secret_config !! "password" = Some p ∧ nonempty p) ∧
  (Bot.class (IRCSensor.setup secret_sensor) = StackStormSensorSimpleBot ↔
     secret_config !! "password" = None ∨
     ∃ p, secret_config !! "password" = Some p ∧ ¬ nonempty p) ∧
  (Bot.class (IRCSensor.setup secret_sensor) = StackStormSensorSaslBot →
     Bot.ident_password (IRCSensor.setup secret_sensor)
       = secret_config !! "password").
Proof.
  apply (sasl_iff_password int_of_str secret_config
           (IRCSensor.setup secret_sensor)).
  vm_compute. reflexivity.
Defined.

Example secret_config_class :
  Bot.class (IRCSensor.setup secret_sensor) = StackStormSensorSaslBot.
Proof. reflexivity. Qed.

Example empty_password_builds_simple_bot :
  Bot.class <$> (match IRCSensor.build int_of_str
                             (<["password" := CStr ""]> ops_config) with
                 | Ok bot => Some bot
                 | Raise _ => None
                 end) = Some StackStormSensorSimpleBot.
Proof. vm_compute. reflexivity. Qed.

(** In either class the realname is the nickname of the sensor. *)
Lemma setup_realname (self : IRCSensor.t) :
  Bot.realname (IRCSensor.setup self) = IRCSensor._nickname self ∧
  Bot.nickname (IRCSensor.setup self) = IRCSensor._nickname self.
Proof. unfold IRCSensor.setup. by destruct (truthy_opt _). Qed.

(** C10. For every configuration from which a bot is built, the bot is
    given the configured nickname as its realname, and as its nickname, in
    the SASL class and in the class without authentication. *)
Theorem realname_is_nickname (int : string → result Z)
    (config : gmap string cfgval) (bot : Bot.t) :
  IRCSensor.build int config = Ok bot →
  config !! "nickname" = Some (Bot.realname bot) ∧
  Bot.realname bot = Bot.nickname bot.
Proof.
  intros (self & Hinit & ->)%build_Ok.
  apply init_Ok in Hinit as (Hnick & _). rewrite Hnick.
  unfold IRCSensor.setup. destruct (truthy_opt _); simpl; auto.
Qed.

Lemma secret_bot_realname :
  secret_config !! "nickname" = Some (Bot.realname (IRCSensor.setup secret_sensor)) ∧
  Bot.realname (IRCSensor.setup secret_sensor)
    = Bot.nickname (IRCSensor.setup secret_sensor).
Proof.
  apply (realname_is_nickname int_of_str secret_config
           (IRCSensor.setup secret_sensor)).
  vm_compute. reflexivity.
Defined.

(** ** Misconfiguration *)

Example host_port_ok : is_host_port int_of_str "irc.example.org:6697" = true.
Proof. reflexivity. Qed.
Example host_port_no_colon : is_host_port int_of_str "irc.example.org" = false.
Proof. reflexivity. Qed.
Example host_port_no_number :
  is_host_port int_of_str "irc.example.org:ircs" = false.
Proof. reflexivity. Qed.

(** C9, as it is stated, fails.  The server string a:80:b is not of the
    form host:port with an integer port, whichever colon is taken as the
    separator; the sensor is constructed all the same, with host a and
    port 80, and a bot is built. *)
Lemma malformed_server_accepted :
  is_host_port int_of_str "a:80:b" = false ∧
  IRCSensor.build int_of_str (<["server" := CStr "a:80:b"]> ops_config)
    = Ok (IRCSensor.setup
            {| IRCSensor._server_host := "a";
               IRCSensor._server_port := 80;
               IRCSensor._nickname := CStr "bot1";
               IRCSensor._password := None;
               IRCSensor._channels := CList ["#ops"] |}).
Proof. split; vm_compute; reflexivity. Qed.

(** C9, as the code has it.  Whatever the builtin [int] accepts, the
    construction of the sensor raises, and no bot is built, for every
    configuration that lacks [server], [nickname] or [channels], whose
    [server] is not a string, or whose [server] string has no second field
    between colons that [int] accepts (there is no colon, or [int] refuses
    what follows the first colon, up to the next one).  The construction
    is a function of the configuration alone: it touches no connection. *)
Theorem misconfiguration_fails_fast (int : string → result Z)
    (config : gmap string cfgval) :
  config !! "server" = None ∨
  config !! "nickname" = None ∨
  config !! "channels" = None ∨
  (∃ l, config !! "server" = Some (CList l)) ∨
  (∃ server, config !! "server" = Some (CStr server) ∧
     ∀ port, split ":" server !! 1%nat = Some port →
             ∃ e, int port = Raise e) →
  ∃ e, IRCSensor.__init__ int config = Raise e ∧
       IRCSensor.build int config = Raise e.
Proof.
  intros Hbad.
  destruct (IRCSensor.__init__ int config) as [self|e] eqn:Hinit.
  - exfalso.
    apply init_Ok in Hinit
      as (Hnick & _ & Hchan & server & port & Hserver & _ & Hport & Hint).
    destruct Hbad as [H|[H|[H|[(l & H)|(server' & H & Hbad)]]]];
      try congruence.
    assert (server' = server) as -> by congruence.
    destruct (Hbad port Hport) as (e & He). congruence.
  - exists e. split; [done|]. unfold IRCSensor.build. by rewrite Hinit.
Qed.

Lemma server_without_port_rejected :
  ∃ e, IRCSensor.__init__ int_of_str
         (<["server" := CStr "irc.example.org"]> ops_config) = Raise e ∧
       IRCSensor.build int_of_str
         (<["server" := CStr "irc.example.org"]> ops_config) = Raise e.
Proof.
  apply (misconfiguration_fails_fast int_of_str
           (<["server" := CStr "irc.example.org"]> ops_config)).
  right. right. right. right. exists "irc.example.org". split.
  - reflexivity.
  - intros port Hport. discriminate Hport.
Defined.

(** The errors of the four kinds of misconfiguration. *)
Example no_colon_is_IndexError :
  IRCSensor.__init__ int_of_str
    (<["server" := CStr "irc.example.org"]> ops_config) = Raise IndexError.
Proof. vm_compute. reflexivity. Qed.
Example bad_port_is_ValueError :
  IRCSensor.__init__ int_of_str
    (<["server" := CStr "irc.example.org:ircs"]> ops_config) = Raise ValueError.
Proof. vm_compute. reflexivity. Qed.
Example no_nickname_is_KeyError :
  IRCSensor.__init__ int_of_str (delete "nickname" ops_config)
    = Raise (KeyError "nickname").
Proof. vm_compute. reflexivity. Qed.
Example no_channels_is_KeyError :
  IRCSensor.__init__ int_of_str (delete "channels" ops_config)
    = Raise (KeyError "channels").
Proof. vm_compute. reflexivity. Qed.

(** Every other configuration is accepted. *)
Lemma well_formed_accepted (int : string → result Z)
    (config : gmap string cfgval)
    (server port : string) (z : Z) (host : string) (nickname channels : cfgval) :
  config !! "server" = Some (CStr server) →
  split ":" server !! 0%nat = Some host →
  split ":" server !! 1%nat = Some port →
  int port = Ok z →
  config !! "nickname" = Some nickname →
  config !! "channels" = Some channels →
  IRCSensor.__init__ int config
    = Ok {| IRCSensor._server_host := host;
            IRCSensor._server_port := z;
            IRCSensor._nickname := nickname;
            IRCSensor._password := config !! "password";
            IRCSensor._channels := channels |}.
Proof.
  intros Hserver Hhost Hport Hint Hnick Hchan.
  unfold IRCSensor.__init__, getitem, list_getitem.
  rewrite Hserver. simpl. rewrite Hhost. simpl. rewrite Hport. simpl.
  rewrite Hint. simpl. rewrite Hnick. simpl. rewrite Hchan. done.
Qed.

(** ** Fatal authentication errors *)

(** A bot that has died handles no further event. *)
Lemma run_dead (self : Bot.t) (inputs : list input) (st : session) :
  alive st = false → Bot.run self inputs st = Ok st.
Proof. intros Hdead. destruct inputs; simpl; [done|]. by rewrite Hdead. Qed.

Lemma react_error (self : Bot.t) (i : input) (st : session) :
  type (ev i) = "error" →
  Bot.react self i st =
    match Bot.class self with
    | StackStormSensorSimpleBot => Bot.on_error self (Some (target (ev i))) st
    | StackStormSensorSaslBot => Ok st
    end.
Proof. intros Ht. unfold Bot.react. rewrite Ht. by repeat case_decide. Qed.

Lemma react_904 (self : Bot.t) (i : input) (st : session) :
  type (ev i) = "904" →
  Bot.react self i st =
    match Bot.class self with
    | StackStormSensorSaslBot => Ok (Bot.on_sasl_failed self st)
    | StackStormSensorSimpleBot => Ok st
    end.
Proof. intros Ht. unfold Bot.react. rewrite Ht. by repeat case_decide. Qed.

(** Neither bot has a callback for an event under the name [saslfail],
    under which the library hands over the reply 904: the handler that the
    SASL bot registers under the name ['904'] is not the one that runs. *)
Lemma react_saslfail (self : Bot.t) (i : input) (st : session) :
  type (ev i) = "saslfail" → Bot.react self i st = Ok st.
Proof. intros Ht. unfold Bot.react. rewrite Ht. by repeat case_decide. Qed.

(** C3, as it is stated, fails.  The bot without authentication has no
    callback for the reply 904, whether it comes under the library's name
    for it or under the name "904": it stays alive and joins #ops on the
    welcome that follows.  The SASL bot has no [on_error]: a notice with
    "SASL access only" leaves it alive, and it joins #ops on the welcome
    that follows. *)
Lemma auth_failure_of_the_other_mode_is_ignored :
  (∃ st' : session,
     Bot.run (IRCSensor.setup ops_sensor)
         [input_at (sasl_failure_reply "bot1") 0 1;
          input_at (server_event "welcome" "bot1") 0 1]
         (fresh_session "bot1") = Ok st' ∧
     Bot.class (IRCSensor.setup ops_sensor) = StackStormSensorSimpleBot ∧
     alive st' = true ∧
     JOIN "#ops" ∈ Connection.sent (conn st')) ∧
  (∃ st' : session,
     Bot.run (IRCSensor.setup ops_sensor)
         [input_at (server_event "904" "bot1") 0 1;
          input_at (server_event "welcome" "bot1") 0 1]
         (fresh_session "bot1") = Ok st' ∧
     alive st' = true ∧
     JOIN "#ops" ∈ Connection.sent (conn st')) ∧
  (∃ st' : session,
     Bot.run (IRCSensor.setup secret_sensor)
         [input_at (server_event "error" "Closing Link: (SASL access only)") 0 1;
          input_at (server_event "welcome" "bot1") 0 1]
         (fresh_session "bot1") = Ok st' ∧
     Bot.class (IRCSensor.setup secret_sensor) = StackStormSensorSaslBot ∧
     alive st' = true ∧
     JOIN "#ops" ∈ Connection.sent (conn st')).
Proof.
  repeat split; eexists; repeat split; try reflexivity;
    simpl; apply list_elem_of_singleton; reflexivity.
Qed.

(** C3, as the code has it.  In a session of the bot without
    authentication, an error notice whose text contains "SASL access only"
    terminates the session: the bot logs the error and dies without
    sending a command, and whatever events follow, none is handled, so no
    JOIN is sent after that. *)
Theorem fatal_auth_error_terminates
    (self : Bot.t) (i : input) (rest : list input) (st : session) :
  alive st = true →
  Bot.class self = StackStormSensorSimpleBot →
  type (ev i) = "error" →
  contains "SASL access only" (target (ev i)) = true →
  ∃ st' : session,
    Bot.react self i st = Ok st' ∧
    alive st' = false ∧
    Connection.sent (conn st') = Connection.sent (conn st) ∧
    dispatched st' = dispatched st ∧
    Bot.run self (i :: rest) st = Ok st'.
Proof.
  intros Halive Hcls Ht Hsasl.
  assert (∃ st', Bot.react self i st = Ok st' ∧ alive st' = false ∧
                 Connection.sent (conn st') = Connection.sent (conn st) ∧
                 dispatched st' = dispatched st)
    as (st' & Hreact & Hdead & Hsent & Hdisp).
  { rewrite (react_error _ _ _ Ht), Hcls. unfold Bot.on_error.
    rewrite Hsasl. by eexists. }
  exists st'. repeat split; try done.
  simpl. rewrite Halive, Hreact. simpl. by apply run_dead.
Qed.

Lemma sasl_only_notice_ends_ops_session :
  ∃ st' : session,
    Bot.react (IRCSensor.setup ops_sensor)
        (input_at (server_event "error" "Closing Link: (SASL access only)") 0 1)
        (fresh_session "bot1") = Ok st' ∧
    alive st' = false ∧
    Connection.sent (conn st') = Connection.sent (conn (fresh_session "bot1")) ∧
    dispatched st' = dispatched (fresh_session "bot1") ∧
    Bot.run (IRCSensor.setup ops_sensor)
        (input_at (server_event "error" "Closing Link: (SASL access only)") 0 1
           :: [input_at (server_event "welcome" "bot1") 0 1])
        (fresh_session "bot1") = Ok st'.
Proof.
  apply (fatal_auth_error_terminates (IRCSensor.setup ops_sensor)
           (input_at (server_event "error" "Closing Link: (SASL access only)") 0 1)
           [input_at (server_event "welcome" "bot1") 0 1]
           (fresh_session "bot1")).
  - reflexivity.
  - reflexivity.
  - reflexivity.
  - reflexivity.
Defined.

(** The reply 904 does not reach [on_sasl_failed]: handed over under the
    library's name for it, it leaves the SASL bot as it was. *)
Example sasl_failure_reply_is_not_handled :
  Bot.react (IRCSensor.setup secret_sensor)
      (input_at (sasl_failure_reply "bot1") 0 1) (fresh_session "bot1")
    = Ok (fresh_session "bot1").
Proof. reflexivity. Qed.

(** * Further properties of the adapter *)

(** ** The handlers and the callbacks that call them *)

Lemma setup_get_handler (k : kind) (self : IRCSensor.t) :
  get_handler (Bot._handlers (IRCSensor.setup self)) (kind_name k) = handler_of k.
Proof.
  unfold get_handler. rewrite setup_handlers, handlers_lookup. by destruct k.
Qed.

(** The callback of a kind is the stamping followed by the handler. *)
Lemma callback_unfold (k : kind) (self : Bot.t) (now : Q) (e : Event) (st : session) :
  callback k self now e st =
    (get_handler (Bot._handlers self) (kind_name k)
       (set_timestamp (int_of_float now) e) st
     ≫= λ st', Ok (set_timestamp (int_of_float now) e, st')).
Proof. by destruct k. Qed.

(** What a handler does with an event, by cases on what the event has. *)
Lemma handler_of_cases (k : kind) (e : Event) (st : session) :
  match timestamp e with
  | None => handler_of k e st = Raise (AttributeError "timestamp")
  | Some t =>
      match k, arguments e with
      | (pubmsg | privmsg), [] => handler_of k e st = Raise IndexError
      | _, _ =>
          ∃ payload, handler_of k e st = Ok (dispatch (trigger_name k) payload st) ∧
                     table_row k e t payload
      end
  end.
Proof.
  unfold table_row.
  destruct k; simpl;
    unfold IRCSensor._handle_pubmsg, IRCSensor._handle_privmsg,
      IRCSensor._handle_join, IRCSensor._handle_part, get_timestamp;
    destruct (timestamp e) as [t|]; simpl; try done;
    try (destruct (arguments e) as [|m rest]; simpl; try done);
    eexists; (split; [reflexivity|]);
    (split; [vm_compute; reflexivity|]);
    (split; [eexists; repeat split; vm_compute; reflexivity|]);
    (split; [vm_compute; reflexivity|]);
    split; try (vm_compute; reflexivity);
    intros Hin; exfalso; revert Hin; vm_compute; set_solver.
Qed.

(** With the bot that [setup] builds, a message callback raises in one case
    only: the event is a pubmsg or a privmsg and has no argument, and the
    error is [IndexError].  The handlers never find the timestamp missing,
    since the callback has set it. *)
Theorem callback_raises_only_without_text
    (k : kind) (self : IRCSensor.t) (now : Q) (e : Event) (st : session)
    (err : pyerr) :
  callback k (IRCSensor.setup self) now e st = Raise err ↔
  err = IndexError ∧ (k = pubmsg ∨ k = privmsg) ∧ arguments e = [].
Proof.
  rewrite callback_unfold, setup_get_handler.
  pose proof (handler_of_cases k (set_timestamp (int_of_float now) e) st) as H.
  remember (handler_of k (set_timestamp (int_of_float now) e) st) as r eqn:Hr.
  clear Hr. simpl in H.
  destruct k, (arguments e) as [|m rest]; simpl in H;
    try (destruct H as (payload & -> & _); simpl; split;
         [discriminate | intros (_ & [?|?] & ?); discriminate]);
    rewrite H; simpl; (split; [intros [= <-]; auto | by intros (-> & _)]).
Qed.

(** A handler that is given an event that no callback has stamped raises
    [AttributeError] for the timestamp, whatever else the event has, and
    dispatches nothing. *)
Theorem handler_needs_stamped_event (k : kind) (e : Event) (st : session) :
  timestamp e = None →
  handler_of k e st = Raise (AttributeError "timestamp").
Proof.
  intros Hts. pose proof (handler_of_cases k e st) as H. by rewrite Hts in H.
Qed.

Lemma alice_unstamped_is_refused :
  handler_of pubmsg alice_says (fresh_session "bot1")
    = Raise (AttributeError "timestamp").
Proof.
  apply (handler_needs_stamped_event pubmsg alice_says (fresh_session "bot1")).
  reflexivity.
Defined.

(** The mapping that [setup] gives the bot has a handler for the four kinds
    and for nothing else: the default handler is never used for the four
    kinds, and no other key would find a handler. *)
Theorem setup_maps_exactly_the_four_kinds (self : IRCSensor.t) (key : string) :
  (∀ k : kind, Bot._handlers (IRCSensor.setup self) !! kind_name k
               = Some (handler_of k)) ∧
  (is_Some (Bot._handlers (IRCSensor.setup self) !! key) ↔
     ∃ k : kind, key = kind_name k).
Proof.
  rewrite setup_handlers. split.
  - intros k. rewrite handlers_lookup. by destruct k.
  - rewrite <- elem_of_dom.
    assert (dom IRCSensor.handlers
            = ({[ "pubmsg"; "privmsg"; "join"; "part" ]} : gset string)) as ->
      by (vm_compute; reflexivity).
    split.
    + rewrite !elem_of_union, !elem_of_singleton.
      intros [[[-> | ->] | ->] | ->];
        [by exists pubmsg | by exists privmsg | by exists join | by exists part].
    + intros (k & ->). destruct k; set_solver.
Qed.

(** ** What one event does to the session *)

Lemma welcome_loop_alive (channels : list string) (st : session) :
  alive (foldl (λ st channel,
                  with_conn (Connection.join channel)
                    (log DEBUG ("Joining #" ++ channel ++ "...") st))
               st channels) = alive st.
Proof.
  revert st. induction channels as [|channel channels IH]; intros st; simpl.
  - done.
  - by rewrite IH.
Qed.

Lemma on_welcome_alive (self : Bot.t) (st : session) :
  alive (Bot.on_welcome self st) = alive st.
Proof. unfold Bot.on_welcome. by rewrite welcome_loop_alive. Qed.

(** The reaction of the bot of [setup] to a message event. *)
Lemma react_message (k : kind) (self : IRCSensor.t) (i : input) (st : session) :
  type (ev i) = kind_name k →
  match k, arguments (ev i) with
  | (pubmsg | privmsg), [] =>
      Bot.react (IRCSensor.setup self) i st = Raise IndexError
  | _, _ =>
      ∃ payload,
        Bot.react (IRCSensor.setup self) i st
          = Ok (dispatch (trigger_name k) payload st) ∧
        table_row k (ev i) (int_of_float (now i)) payload
  end.
Proof.
  intros Hk. rewrite (react_kind k) by done.
  rewrite callback_unfold, setup_get_handler.
  pose proof (handler_of_cases k (set_timestamp (int_of_float (now i)) (ev i)) st) as H.
  remember (handler_of k (set_timestamp (int_of_float (now i)) (ev i)) st) as r eqn:Hr.
  clear Hr. simpl in H.
  destruct k, (arguments (ev i)) as [|m rest] eqn:Hargs; simpl in H;
    try (destruct H as (payload & -> & Hrow); simpl; exists payload;
         split; [done|]; unfold table_row in *; simpl in *;
         by rewrite ?Hargs in * );
    by rewrite H.
Qed.

(** Which events end the session of the bot of [setup]. *)
Lemma react_alive (self : IRCSensor.t) (i : input) (st st' : session) :
  alive st = true →
  Bot.react (IRCSensor.setup self) i st = Ok st' →
  (alive st' = false ↔ fatal (IRCSensor.setup self) (ev i)).
Proof.
  intros Halive. unfold Bot.react, fatal.
  destruct (decide (type (ev i) = "welcome")) as [Ht|_].
  { intros [= <-]. rewrite on_welcome_alive, Halive, Ht.
    destruct (Bot.class _); split; try done; by intros []. }
  destruct (decide (type (ev i) = "nicknameinuse")) as [Ht|_].
  { intros [= <-]. simpl. rewrite Halive, Ht.
    destruct (Bot.class _); split; try done; by intros []. }
  assert (∀ k, type (ev i) = kind_name k →
            Bot.react (IRCSensor.setup self) i st = Ok st' →
            (alive st' = false ↔
               match Bot.class (IRCSensor.setup self) with
               | StackStormSensorSimpleBot =>
                   type (ev i) = "error" ∧
                   contains "SASL access only" (target (ev i)) = true
               | StackStormSensorSaslBot => type (ev i) = "904"
               end)) as Hkind.
  { intros k Hk Hreact. pose proof (react_message k self i st Hk) as H.
    assert (∃ payload, st' = dispatch (trigger_name k) payload st)
      as (payload & ->).
    { destruct k, (arguments (ev i)); try congruence;
        destruct H as (payload & H & _); exists payload; congruence. }
    simpl. rewrite Halive, Hk.
    destruct k, (Bot.class _); split; try done; by intros []. }
  destruct (decide (type (ev i) = "pubmsg")) as [Ht|_].
  { intros H. apply (Hkind pubmsg Ht). unfold Bot.react.
    rewrite Ht. by repeat case_decide. }
  destruct (decide (type (ev i) = "privmsg")) as [Ht|_].
  { intros H. apply (Hkind privmsg Ht). unfold Bot.react.
    rewrite Ht. by repeat case_decide. }
  destruct (decide (type (ev i) = "join")) as [Ht|_].
  { intros H. apply (Hkind join Ht). unfold Bot.react.
    rewrite Ht. by repeat case_decide. }
  destruct (decide (type (ev i) = "part")) as [Ht|_].
  { intros H. apply (Hkind part Ht). unfold Bot.react.
    rewrite Ht. by repeat case_decide. }
  clear Hkind.
  destruct (decide (type (ev i) = "error")) as [Ht|Hne].
  { destruct (Bot.class _).
    - unfold Bot.on_error.
      destruct (contains "SASL access only" (target (ev i)));
        intros [= <-]; simpl.
      + split; done.
      + rewrite Halive. split; [done|]. by intros [_ ?].
    - intros [= <-]. rewrite Halive, Ht. split; done. }
  destruct (decide (type (ev i) = "904")) as [Ht|Hne'].
  { destruct (Bot.class _); intros [= <-].
    - rewrite Halive. split; [done|]. rewrite Ht. by intros [? _].
    - simpl. split; done. }
  intros [= <-]. rewrite Halive.
  destruct (Bot.class _); split; try done. by intros [? _].
Qed.

(** ** Whole runs of the bot that [setup] builds *)

(** Among the events that the callbacks of the adapter handle without an
    exception, the one that ends the session of the bot of [setup] is the
    one for which the class of the bot has a callback that calls [die]: an
    event under the name "904" for the SASL bot, which registers
    [on_sasl_failed] under that name, and an error notice with the text
    "SASL access only" for the other bot.  An event under any other name,
    a welcome, a nickname collision or a message among them, leaves the bot
    alive. *)
Theorem only_fatal_events_terminate
    (self : IRCSensor.t) (i : input) (st st' : session) :
  alive st = true →
  Bot.react (IRCSensor.setup self) i st = Ok st' →
  (alive st' = false ↔ fatal (IRCSensor.setup self) (ev i)).
Proof. apply react_alive. Qed.

Lemma welcome_is_not_fatal :
  alive (Bot.on_welcome (IRCSensor.setup ops_sensor) (fresh_session "bot1")) = false
  ↔ fatal (IRCSensor.setup ops_sensor) (server_event "welcome" "bot1").
Proof.
  apply (only_fatal_events_terminate ops_sensor
           (input_at (server_event "welcome" "bot1") 0 1)
           (fresh_session "bot1")).
  - reflexivity.
  - reflexivity.
Defined.

(** A run over message events, each carrying what its handler reads,
    handles all of them: it dispatches one trigger for each event, in the
    order of the events, each with the name and the payload of its event;
    it sends no command, logs nothing and leaves the bot alive. *)
Theorem messages_become_triggers_in_order
    (self : IRCSensor.t) (inputs : list input) (st : session) :
  alive st = true →
  Forall is_message inputs →
  ∃ (st' : session) (triggers : list (string * gmap string pyval)),
    Bot.run (IRCSensor.setup self) inputs st = Ok st' ∧
    dispatched st' = (dispatched st ++ triggers)%list ∧
    Forall2 trigger_of inputs triggers ∧
    conn st' = conn st ∧
    logged st' = logged st ∧
    alive st' = true.
Proof.
  intros Halive Hall. revert st Halive.
  induction Hall as [|i rest (k & Hk & Htext) _ IH]; intros st Halive.
  - exists st, []. simpl. by rewrite app_nil_r.
  - pose proof (react_message k self i st Hk) as Hreact.
    assert (∃ payload,
              Bot.react (IRCSensor.setup self) i st
                = Ok (dispatch (trigger_name k) payload st) ∧
              table_row k (ev i) (int_of_float (now i)) payload)
      as (payload & Hstep & Hrow).
    { destruct k; simpl in Htext; try done;
        destruct (arguments (ev i)); done. }
    destruct (IH (dispatch (trigger_name k) payload st) Halive)
      as (st' & triggers & Hrun & Hdisp & Htr & Hconn & Hlog & Ha).
    exists st', ((trigger_name k, payload) :: triggers).
    simpl. rewrite Halive, Hstep. simpl. split; [done|].
    split; [by rewrite Hdisp; simpl; rewrite <- app_assoc|].
    split; [|done].
    constructor; [|done]. by exists k.
Qed.

Lemma alice_twice_becomes_two_triggers :
  ∃ (st' : session) (triggers : list (string * gmap string pyval)),
    Bot.run (IRCSensor.setup ops_sensor)
        [input_at alice_says (3 # 2) 1; input_at alice_says (5 # 2) 1]
        (fresh_session "bot1") = Ok st' ∧
    dispatched st' = (dispatched (fresh_session "bot1") ++ triggers)%list ∧
    Forall2 trigger_of
      [input_at alice_says (3 # 2) 1; input_at alice_says (5 # 2) 1] triggers ∧
    conn st' = conn (fresh_session "bot1") ∧
    logged st' = logged (fresh_session "bot1") ∧
    alive st' = true.
Proof.
  apply (messages_become_triggers_in_order ops_sensor
           [input_at alice_says (3 # 2) 1; input_at alice_says (5 # 2) 1]
           (fresh_session "bot1")).
  - reflexivity.
  - constructor; [exists pubmsg; split; [reflexivity | discriminate]|].
    constructor; [exists pubmsg; split; [reflexivity | discriminate]|].
    constructor.
Defined.

(** ** The error notice *)

Lemma append_cons (a : ascii) (s t : string) :
  (String a s ++ t)%string = String a (s ++ t)%string.
Proof. reflexivity. Qed.

Lemma prefix_iff (s1 s2 : string) :
  String.prefix s1 s2 = true ↔ ∃ post, s2 = (s1 ++ post)%string.
Proof.
  revert s2. induction s1 as [|a s1 IH]; intros [|b s2]; simpl.
  - split; [|done]. intros _. by exists "".
  - split; [|done]. intros _. by exists (String b s2).
  - split; [done|]. intros (post & H). rewrite append_cons in H. discriminate H.
  - destruct (ascii_dec a b) as [->|Hne].
    + rewrite IH. split.
      * intros (post & ->). by exists post.
      * intros (post & H). rewrite append_cons in H.
        injection H as ->. by exists post.
    + split; [done|]. intros (post & H). rewrite append_cons in H.
      injection H as -> _. done.
Qed.

Lemma contains_nil (needle : string) :
  contains needle "" = String.prefix needle "" || false.
Proof. reflexivity. Qed.

Lemma contains_cons (needle : string) (a : ascii) (hay : string) :
  contains needle (String a hay)
    = String.prefix needle (String a hay) || contains needle hay.
Proof. reflexivity. Qed.

(** [needle in hay] holds exactly when [hay] is some text, then [needle],
    then some text. *)
Lemma contains_iff (needle hay : string) :
  contains needle hay = true ↔
  ∃ pre post, hay = (pre ++ needle ++ post)%string.
Proof.
  induction hay as [|a hay IH].
  - rewrite contains_nil, orb_false_r, prefix_iff. split.
    + intros (post & H). by exists "", post.
    + intros (pre & post & H). destruct pre as [|b pre].
      * by exists post.
      * rewrite append_cons in H. discriminate H.
  - rewrite contains_cons, orb_true_iff, prefix_iff, IH. split.
    + intros [(post & H)|(pre & post & ->)].
      * by exists "", post.
      * by exists (String a pre), post.
    + intros (pre & post & H). destruct pre as [|b pre].
      * left. by exists post.
      * rewrite append_cons in H. injection H as -> ->.
        right. by exists pre, post.
Qed.

(** [on_error] reads the text of the notice.  When the notice has none,
    the test raises a [TypeError].  When it has one, [on_error] ends the
    session if and only if the phrase "SASL access only" is somewhere in
    the text, and then it logs one error and leaves the connection and the
    dispatched triggers alone; a notice without the phrase changes nothing
    at all. *)
Theorem on_error_dies_iff_phrase
    (self : Bot.t) (target : option string) (st : session) :
  alive st = true →
  match target with
  | None => Bot.on_error self target st = Raise TypeError
  | Some text =>
      ∃ st' : session,
        Bot.on_error self target st = Ok st' ∧
        (alive st' = false ↔
           ∃ pre post, text = (pre ++ "SASL access only" ++ post)%string) ∧
        (alive st' = false →
           (∃ line, logged st' = (logged st ++ [(ERROR, line)])%list) ∧
           conn st' = conn st ∧ dispatched st' = dispatched st) ∧
        (alive st' = true → st' = st)
  end.
Proof.
  intros Halive. destruct target as [text|]; [|done].
  unfold Bot.on_error.
  destruct (contains "SASL access only" text) eqn:Hphrase;
    eexists; (split; [reflexivity|]); rewrite <- contains_iff, Hphrase; simpl.
  - split; [done|]. split; [|done]. intros _. split; [by eexists|done].
  - rewrite Halive. split; [done|]. split; done.
Qed.

Lemma plain_error_notice_changes_nothing :
  ∃ st' : session,
    Bot.on_error deaf_bot (Some "Closing Link") (fresh_session "bot1") = Ok st' ∧
    (alive st' = false ↔
       ∃ pre post, "Closing Link" = (pre ++ "SASL access only" ++ post)%string) ∧
    (alive st' = false →
       (∃ line, logged st'
                = (logged (fresh_session "bot1") ++ [(ERROR, line)])%list) ∧
       conn st' = conn (fresh_session "bot1") ∧
       dispatched st' = dispatched (fresh_session "bot1")) ∧
    (alive st' = true → st' = fresh_session "bot1").
Proof.
  apply (on_error_dies_iff_phrase deaf_bot (Some "Closing Link")
           (fresh_session "bot1")).
  reflexivity.
Defined.

(** A notice without text is not handled: the callback raises. *)
Example error_notice_without_text_raises :
  Bot.on_error deaf_bot None (fresh_session "bot1") = Raise TypeError.
Proof. reflexivity. Qed.

(** ** The server string *)

Lemma append_nil_r (s : string) : (s ++ "")%string = s.
Proof.
  induction s as [|a s IH]; [done|]. by rewrite append_cons, IH.
Qed.

Lemma contains_colon_cons (a : ascii) (s : string) :
  contains ":" (String a s) = Ascii.eqb a ":" || contains ":" s.
Proof.
  rewrite contains_cons. f_equal. cbn [String.prefix].
  destruct (ascii_dec ":" a) as [<-|Hne].
  - by destruct s.
  - symmetry. apply Ascii.eqb_neq. congruence.
Qed.

(** The first field of a split has no colon; it is the whole string when
    there is no other field, and otherwise a colon and the text that the
    other fields are split from follow it. *)
Lemma split_shape (s : string) :
  ∃ (h : string) (t : list string),
    split ":" s = h :: t ∧
    contains ":" h = false ∧
    ((t = [] ∧ s = h) ∨
     (∃ s', s = (h ++ ":" ++ s')%string ∧ t = split ":" s')).
Proof.
  induction s as [|c s (h & t & Hsplit & Hh & Hs)]; simpl.
  - exists "", []. split; [done|]. split; [done|]. by left.
  - destruct (Ascii.eqb c ":") eqn:Hc.
    + apply Ascii.eqb_eq in Hc as ->.
      exists "", (split ":" s). split; [done|]. split; [done|].
      right. by exists s.
    + rewrite Hsplit. exists (String c h), t. split; [done|].
      split; [by rewrite contains_colon_cons, Hc, Hh|].
      destruct Hs as [[-> ->]|(s' & -> & ->)].
      * by left.
      * right. by exists s'.
Qed.

Lemma split_no_colon (h : string) :
  contains ":" h = false → split ":" h = [h].
Proof.
  induction h as [|c h IH]; [done|].
  rewrite contains_colon_cons. intros [Hc Hh]%orb_false_iff.
  simpl. by rewrite Hc, (IH Hh).
Qed.

Lemma split_at_colon (h s' : string) :
  contains ":" h = false →
  split ":" (h ++ ":" ++ s')%string = h :: split ":" s'.
Proof.
  induction h as [|c h IH].
  - done.
  - rewrite contains_colon_cons. intros [Hc Hh]%orb_false_iff.
    rewrite append_cons. simpl. by rewrite Hc, (IH Hh).
Qed.

(** The first two fields of a server string, in terms of the string. *)
Lemma split_two_fields (server host port : string) :
  split ":" server !! 0%nat = Some host ∧ split ":" server !! 1%nat = Some port ↔
  contains ":" host = false ∧ contains ":" port = false ∧
  ∃ tail, server = (host ++ ":" ++ port ++ tail)%string ∧
          (tail = "" ∨ ∃ t, tail = (":" ++ t)%string).
Proof.
  split.
  - intros [H0 H1].
    destruct (split_shape server) as (h & t & Hsplit & Hh & Hs).
    rewrite Hsplit in H0, H1. simpl in H0, H1. injection H0 as ->.
    destruct Hs as [[-> _]|(s' & -> & ->)]; [done|].
    destruct (split_shape s') as (p & t' & Hsplit' & Hp & Hs').
    rewrite Hsplit' in H1. simpl in H1. injection H1 as ->.
    split; [done|]. split; [done|].
    destruct Hs' as [[_ ->]|(s'' & -> & _)].
    + exists "". split; [by rewrite append_nil_r|by left].
    + exists (":" ++ s'')%string. split; [done|]. right. by exists s''.
  - intros (Hh & Hp & tail & -> & Htail).
    rewrite (split_at_colon _ _ Hh). simpl. split; [done|].
    destruct Htail as [->|(t & ->)].
    + by rewrite append_nil_r, (split_no_colon _ Hp).
    + by rewrite (split_at_colon _ _ Hp).
Qed.

Lemma split_second_none (server : string) :
  split ":" server !! 1%nat = None ↔ contains ":" server = false.
Proof.
  destruct (split_shape server) as (h & t & Hsplit & Hh & Hs).
  rewrite Hsplit. simpl.
  destruct Hs as [[-> ->]|(s' & -> & ->)].
  - done.
  - destruct (split_shape s') as (p & t' & -> & _). simpl. split; [done|].
    intros Hno. assert (contains ":" (h ++ ":" ++ s') = true) as Hyes
      by (apply contains_iff; by exists h, s').
    congruence.
Qed.

(** ** The constructor of the sensor *)

(** Whatever the builtin [int] accepts, [__init__] accepts a configuration
    exactly when its [server] is a host without colon, a colon, a text
    without colon that [int] accepts, and then nothing or a colon and any
    text, and [nickname] and [channels] are there.  The sensor keeps that
    host, the integer that [int] returned, the nickname and the channels
    as they are, and the password if there is one. *)
Theorem init_accepts_iff (int : string → result Z)
    (config : gmap string cfgval) (self : IRCSensor.t) :
  IRCSensor.__init__ int config = Ok self ↔
  (∃ port tail : string,
     config !! "server"
       = Some (CStr (IRCSensor._server_host self ++ ":" ++ port ++ tail)) ∧
     contains ":" (IRCSensor._server_host self) = false ∧
     contains ":" port = false ∧
     (tail = "" ∨ ∃ t, tail = (":" ++ t)%string) ∧
     int port = Ok (IRCSensor._server_port self)) ∧
  config !! "nickname" = Some (IRCSensor._nickname self) ∧
  config !! "password" = IRCSensor._password self ∧
  config !! "channels" = Some (IRCSensor._channels self).
Proof.
  split.
  - intros (Hnick & Hpw & Hchan & server & port & Hserver & H0 & H1 & Hint)%init_Ok.
    split; [|done].
    destruct (proj1 (split_two_fields server _ port) (conj H0 H1))
      as (Hh & Hp & tail & -> & Htail).
    by exists port, tail.
  - intros ((port & tail & Hserver & Hh & Hp & Htail & Hint) & Hnick & Hpw & Hchan).
    destruct (proj2 (split_two_fields
                       (IRCSensor._server_host self ++ ":" ++ port ++ tail)
                       (IRCSensor._server_host self) port))
      as [H0 H1]; [by eauto|].
    rewrite (well_formed_accepted int config _ port _ _ _ _
               Hserver H0 H1 Hint Hnick Hchan).
    rewrite Hpw. by destruct self.
Qed.

(** Whatever the builtin [int] does, [__init__] reports the first thing
    that is wrong, in the order in which it reads the configuration: the
    [server] key, the type of its value, the colon, the port (the error is
    then the one that [int] raises), the [nickname] key, the [channels]
    key.  It raises in these six cases only. *)
Theorem init_reports_first_problem (int : string → result Z)
    (config : gmap string cfgval) (e : pyerr) :
  IRCSensor.__init__ int config = Raise e ↔
  (config !! "server" = None ∧ e = KeyError "server") ∨
  (∃ l, config !! "server" = Some (CList l) ∧ e = AttributeError "split") ∨
  (∃ server, config !! "server" = Some (CStr server) ∧
             contains ":" server = false ∧ e = IndexError) ∨
  (∃ server port, config !! "server" = Some (CStr server) ∧
                  split ":" server !! 1%nat = Some port ∧
                  int port = Raise e) ∨
  (server_parses int config ∧ config !! "nickname" = None ∧
     e = KeyError "nickname") ∨
  (server_parses int config ∧ is_Some (config !! "nickname") ∧
     config !! "channels" = None ∧ e = KeyError "channels").
Proof.
  unfold server_parses, IRCSensor.__init__, getitem.
  destruct (config !! "server") as [[server|l]|] eqn:Hserver; simpl.
  - destruct (split_shape server) as (h & t & Hsplit & _).
    unfold list_getitem. rewrite Hsplit. simpl.
    destruct (t !! 0%nat) as [port|] eqn:Hport; simpl.
    + assert (split ":" server !! 1%nat = Some port) as H1
        by (by rewrite Hsplit).
      assert (contains ":" server = true) as Hcolon.
      { destruct (contains ":" server) eqn:Hc; [done|].
        apply split_second_none in Hc. congruence. }
      destruct (int port) as [z|e'] eqn:Hint; simpl.
      * destruct (config !! "nickname") as [n|] eqn:Hnick; simpl.
        -- destruct (config !! "channels") as [c|] eqn:Hchan; simpl.
           ++ split; [done|].
              intros [[? _]|[(? & ? & _)|[(? & ? & ? & _)|
                     [(? & ? & ? & ? & ?)|[(_ & ? & _)|(_ & _ & ? & _)]]]]];
                simplify_eq; congruence.
           ++ split.
              ** intros [= <-]. do 5 right.
                 split; [by exists server, port, z|]. by split; [eexists|].
              ** intros [[? _]|[(? & ? & _)|[(? & ? & ? & _)|
                        [(? & ? & ? & ? & ?)|[(_ & ? & _)|(_ & _ & _ & ->)]]]]];
                   simplify_eq; congruence.
        -- split.
           ++ intros [= <-]. do 4 right. left.
              split; [by exists server, port, z|done].
           ++ intros [[? _]|[(? & ? & _)|[(? & ? & ? & _)|
                     [(? & ? & ? & ? & ?)|[(_ & _ & ->)|(_ & [? ?] & _)]]]]];
                simplify_eq; congruence.
      * split.
        -- intros [= <-]. do 3 right. left. by exists server, port.
        -- intros [[? _]|[(? & ? & _)|[(? & ? & ? & _)|
                  [(? & ? & ? & ? & ?)|
                   [((? & ? & ? & ? & ? & ?) & _)|((? & ? & ? & ? & ? & ?) & _)]]]]];
             simplify_eq; congruence.
    + assert (split ":" server !! 1%nat = None) as H1 by (by rewrite Hsplit).
      apply split_second_none in H1 as Hcolon. split.
      * intros [= <-]. do 2 right. left. by exists server.
      * intros [[? _]|[(? & ? & _)|[(? & ? & _ & ->)|
               [(? & ? & ? & ? & _)|
                [((? & ? & ? & ? & ? & ?) & _)|((? & ? & ? & ? & ? & ?) & _)]]]]];
          simplify_eq; congruence.
  - split.
    + intros [= <-]. right. left. by exists l.
    + intros [[? _]|[(? & ? & ->)|[(? & ? & _)|
             [(? & ? & ? & _)|
              [((? & ? & ? & ? & _) & _)|((? & ? & ? & ? & _) & _)]]]]];
        simplify_eq; congruence.
  - split.
    + intros [= <-]. by left.
    + intros [[_ ->]|[(? & ? & _)|[(? & ? & _)|
             [(? & ? & ? & _)|
              [((? & ? & ? & ? & _) & _)|((? & ? & ? & ? & _) & _)]]]]];
        simplify_eq; congruence.
Qed.

(** ** The digits of an integer *)

Lemma digit_of_char (d : N) :
  (d < 10)%N → digit_value (pretty_N_char d) = Some (Z.of_N d).
Proof.
  intros Hd.
  assert (d = 0 ∨ d = 1 ∨ d = 2 ∨ d = 3 ∨ d = 4 ∨ d = 5 ∨ d = 6 ∨ d = 7
          ∨ d = 8 ∨ d = 9)%N as Hcases by lia.
  repeat (destruct Hcases as [-> | Hcases]; [reflexivity|]).
  by subst.
Qed.

(** The digits that [pretty_N_go] puts in front of [s] are read as the
    number they stand for. *)
Lemma digits_value_pretty_go (x : N) (s : string) (acc : Z) :
  ∃ acc',
    digits_value acc (pretty_N_go x s) = digits_value acc' s ∧
    (acc = 0 → acc' = Z.of_N x).
Proof.
  revert s. induction (N.lt_wf_0 x) as [x _ IH]; intros s.
  destruct (decide (x = 0%N)) as [->|Hx].
  - exists acc. by rewrite pretty_N_go_0.
  - rewrite pretty_N_go_step by lia.
    destruct (IH (x `div` 10)%N) with (s := String (pretty_N_char (x `mod` 10)) s)
      as (a1 & Hgo & Ha1); [apply N.div_lt; lia|].
    exists (10 * a1 + Z.of_N (x `mod` 10)). split.
    + rewrite Hgo. simpl.
      by rewrite digit_of_char by (apply N.mod_lt; lia).
    + intros Hacc. rewrite (Ha1 Hacc).
      rewrite (N.div_mod x 10) at 3 by lia. lia.
Qed.

(** A string of digits: every character has a digit value. *)
Lemma pretty_go_digits (x : N) (s : string) :
  Forall (λ c, is_Some (digit_value c)) (list_ascii_of_string s) →
  Forall (λ c, is_Some (digit_value c)) (list_ascii_of_string (pretty_N_go x s)).
Proof.
  revert s. induction (N.lt_wf_0 x) as [x _ IH]; intros s Hs.
  destruct (decide (x = 0%N)) as [->|Hx].
  - by rewrite pretty_N_go_0.
  - rewrite pretty_N_go_step by lia. apply IH; [apply N.div_lt; lia|].
    simpl. constructor; [|done].
    rewrite digit_of_char by (apply N.mod_lt; lia). by eexists.
Qed.

(** The text of a positive integer is made of decimal digits, and read as
    a decimal number it is the integer. *)
Lemma str_of_int_digits (n : Z) :
  0 < n →
  Forall (λ c, is_Some (digit_value c)) (list_ascii_of_string (str_of_int n)) ∧
  digits_value 0 (str_of_int n) = Some n.
Proof.
  intros Hn. destruct n as [|p|p]; try lia.
  unfold str_of_int, pretty, pretty_Z.
  unfold pretty, pretty_positive, pretty, pretty_N.
  rewrite decide_False by done. split.
  - apply pretty_go_digits. constructor.
  - destruct (digits_value_pretty_go (N.pos p) "" 0) as (acc' & Hval & Hacc).
    rewrite (Hacc eq_refl) in Hval. by simpl in Hval.
Qed.

(** ** More on nickname collisions *)

Lemma length_append (s t : string) :
  String.length (s ++ t) = (String.length s + String.length t)%nat.
Proof.
  induction s as [|a s IH]; [done|]. rewrite append_cons. simpl. by rewrite IH.
Qed.

Lemma suffix_length (n : Z) :
  1 ≤ n ≤ 1000 →
  (1 ≤ String.length (str_of_int n) ≤ 4)%nat.
Proof.
  intros Hn.
  assert (forallb (λ n, (1 <=? String.length (str_of_int n))%nat
                        && (String.length (str_of_int n) <=? 4)%nat)
            (seqZ 1 1000) = true) as Hall by (vm_compute; reflexivity).
  rewrite forallb_forall in Hall.
  assert (n ∈ seqZ 1 1000) as Hin by (apply elem_of_seqZ; lia).
  apply list_elem_of_In, Hall in Hin.
  apply andb_true_iff in Hin as [H1%Nat.leb_le H4%Nat.leb_le]. lia.
Qed.

(** The nickname that [on_nicknameinuse] asks for is the current nickname,
    a dash and the text of the number that [randint] returned: one to four
    characters, each a decimal digit, which read as a decimal number are
    that number, between 1 and 1000.  The nickname asked for is thus two
    to five characters longer than the current one. *)
Theorem requested_nickname_reads_back
    (self : Bot.t) (randint : Z → Z → Z) (st : session) :
  (∀ a b : Z, a ≤ b → a ≤ randint a b ≤ b) →
  ∃ suffix : string,
    suffix = str_of_int (randint 1 1000) ∧
    Connection.sent (conn (Bot.on_nicknameinuse self randint st))
      = (Connection.sent (conn st)
           ++ [NICK (Connection.get_nickname (conn st) ++ "-" ++ suffix)%string])%list ∧
    Forall (λ c, is_Some (digit_value c)) (list_ascii_of_string suffix) ∧
    digits_value 0 suffix = Some (randint 1 1000) ∧
    1 ≤ randint 1 1000 ≤ 1000 ∧
    (1 ≤ String.length suffix ≤ 4)%nat ∧
    String.length (Connection.get_nickname (conn st) ++ "-" ++ suffix)
      = (String.length (Connection.get_nickname (conn st)) + 1
         + String.length suffix)%nat.
Proof.
  intros Hrange. exists (str_of_int (randint 1 1000)).
  assert (1 ≤ randint 1 1000 ≤ 1000) as Hn by (apply Hrange; lia).
  destruct (str_of_int_digits (randint 1 1000)) as [Hdigits Hval]; [lia|].
  split; [done|]. split; [done|]. split; [done|]. split; [done|].
  split; [done|]. split; [by apply suffix_length|].
  rewrite !length_append. simpl. lia.
Qed.

Lemma bot1_suffix_reads_back :
  ∃ suffix : string,
    suffix = str_of_int ((λ a b, Z.max a (Z.min b 812)) 1 1000) ∧
    Connection.sent (conn (Bot.on_nicknameinuse deaf_bot
                             (λ a b, Z.max a (Z.min b 812)) (fresh_session "bot1")))
      = (Connection.sent (conn (fresh_session "bot1"))
           ++ [NICK (Connection.get_nickname (conn (fresh_session "bot1"))
                       ++ "-" ++ suffix)%string])%list ∧
    Forall (λ c, is_Some (digit_value c)) (list_ascii_of_string suffix) ∧
    digits_value 0 suffix = Some ((λ a b, Z.max a (Z.min b 812)) 1 1000) ∧
    1 ≤ (λ a b, Z.max a (Z.min b 812)) 1 1000 ≤ 1000 ∧
    (1 ≤ String.length suffix ≤ 4)%nat ∧
    String.length (Connection.get_nickname (conn (fresh_session "bot1"))
                     ++ "-" ++ suffix)
      = (String.length (Connection.get_nickname (conn (fresh_session "bot1"))) + 1
         + String.length suffix)%nat.
Proof.
  apply (requested_nickname_reads_back deaf_bot
           (λ a b, Z.max a (Z.min b 812)) (fresh_session "bot1")).
  intros a b Hab. lia.
Defined.

Example bot1_suffix_is_812 :
  Bot.on_nicknameinuse deaf_bot (λ a b, Z.max a (Z.min b 812))
    (fresh_session "bot1")
  = with_conn (Connection.nick "bot1-812") (fresh_session "bot1").
Proof. reflexivity. Qed.

(** However many collisions follow one another, every nickname asked for is
    built from the nickname that the connection holds, which does not
    change: the suffixes do not pile up, one NICK is sent for each
    collision, in order, and the bot stays alive. *)
Theorem collisions_never_stack_suffixes
    (self : Bot.t) (inputs : list input) (st : session) :
  alive st = true →
  Forall (λ i, type (ev i) = "nicknameinuse") inputs →
  ∃ st' : session,
    Bot.run self inputs st = Ok st' ∧
    Connection.sent (conn st')
      = (Connection.sent (conn st)
           ++ ((λ i, NICK (Connection.get_nickname (conn st) ++ "-"
                             ++ str_of_int (randint i 1 1000))%string)
                 <$> inputs))%list ∧
    Connection.get_nickname (conn st') = Connection.get_nickname (conn st) ∧
    dispatched st' = dispatched st ∧
    logged st' = logged st ∧
    alive st' = true.
Proof.
  intros Halive Hall. revert st Halive.
  induction Hall as [|i rest Ht _ IH]; intros st Halive.
  - exists st. simpl. by rewrite app_nil_r.
  - destruct (IH (Bot.on_nicknameinuse self (randint i) st) Halive)
      as (st' & Hrun & Hsent & Hnick & Hdisp & Hlog & Ha).
    exists st'. simpl. rewrite Halive, (react_nicknameinuse _ _ _ Ht). simpl.
    split; [done|]. simpl in *.
    rewrite Hsent, Hnick, Hdisp, Hlog, <- app_assoc. done.
Qed.

Lemma three_collisions_of_bot1 :
  ∃ st' : session,
    Bot.run deaf_bot
        [input_at (server_event "nicknameinuse" "*") 0 5;
         input_at (server_event "nicknameinuse" "*") 0 812;
         input_at (server_event "nicknameinuse" "*") 0 40]
        (fresh_session "bot1") = Ok st' ∧
    Connection.sent (conn st')
      = (Connection.sent (conn (fresh_session "bot1"))
           ++ ((λ i, NICK (Connection.get_nickname (conn (fresh_session "bot1"))
                             ++ "-" ++ str_of_int (randint i 1 1000))%string)
                 <$> [input_at (server_event "nicknameinuse" "*") 0 5;
                      input_at (server_event "nicknameinuse" "*") 0 812;
                      input_at (server_event "nicknameinuse" "*") 0 40]))%list ∧
    Connection.get_nickname (conn st')
      = Connection.get_nickname (conn (fresh_session "bot1")) ∧
    dispatched st' = dispatched (fresh_session "bot1") ∧
    logged st' = logged (fresh_session "bot1") ∧
    alive st' = true.
Proof.
  apply (collisions_never_stack_suffixes deaf_bot
           [input_at (server_event "nicknameinuse" "*") 0 5;
            input_at (server_event "nicknameinuse" "*") 0 812;
            input_at (server_event "nicknameinuse" "*") 0 40]
           (fresh_session "bot1")).
  - reflexivity.
  - constructor; [reflexivity|]. constructor; [reflexivity|].
    constructor; [reflexivity|]. constructor.
Defined.

(** ** More on the welcome event *)

Lemma welcome_loop_effect (channels : list string) (st : session) :
  let st' :=
    foldl (λ st channel,
             with_conn (Connection.join channel)
               (log DEBUG ("Joining #" ++ channel ++ "...") st))
          st channels in
  Connection.sent (conn st')
    = (Connection.sent (conn st) ++ (JOIN <$> channels))%list ∧
  logged st'
    = (logged st
         ++ ((λ channel, (DEBUG, "Joining #" ++ channel ++ "...")%string)
               <$> channels))%list.
Proof.
  revert st. induction channels as [|channel channels IH]; intros st; simpl.
  - by rewrite !app_nil_r.
  - match goal with
    | |- context [foldl _ ?s channels] => destruct (IH s) as (Hsent & Hlog)
    end.
    simpl in *. rewrite Hsent, Hlog. by rewrite <- !app_assoc.
Qed.

(** [on_welcome] logs that it is connected and then one line for each
    channel, in the order in which it joins them.  The line is "Joining #",
    the channel as configured and "...", so a channel that is configured
    with its own # is logged with two. *)
Theorem welcome_logs_each_channel (self : Bot.t) (st : session) :
  logged (Bot.on_welcome self st)
    = (logged st
         ++ (DEBUG, "Connected to the server")
            :: ((λ channel, (DEBUG, "Joining #" ++ channel ++ "...")%string)
                  <$> iter (Bot._channels self)))%list ∧
  Connection.sent (conn (Bot.on_welcome self st))
    = (Connection.sent (conn st) ++ (JOIN <$> iter (Bot._channels self)))%list.
Proof.
  unfold Bot.on_welcome.
  destruct (welcome_loop_effect (iter (Bot._channels self))
              (log DEBUG "Connected to the server" st)) as (Hsent & Hlog).
  simpl in *. rewrite Hsent, Hlog. by rewrite <- app_assoc.
Qed.

Example welcome_logs_ops :
  logged (Bot.on_welcome (IRCSensor.setup ops_sensor) (fresh_session "bot1"))
    = [(DEBUG, "Connected to the server"); (DEBUG, "Joining ##ops...")].
Proof. reflexivity. Qed.

(** When [channels] is configured as one string instead of a list of
    strings, [on_welcome] iterates over its characters: it sends one JOIN
    for each character of the string, as many as the string is long, and
    none for the name as a whole unless it is a single character. *)
Theorem string_channels_are_joined_by_character
    (self : Bot.t) (name : string) (st : session) :
  Bot._channels self = CStr name →
  Connection.sent (conn (Bot.on_welcome self st))
    = (Connection.sent (conn st)
         ++ ((λ c, JOIN (String c "")) <$> list_ascii_of_string name))%list ∧
  length (Connection.sent (conn (Bot.on_welcome self st)))
    = (length (Connection.sent (conn st)) + String.length name)%nat ∧
  (JOIN name ∈ ((λ c, JOIN (String c "")) <$> list_ascii_of_string name)
     → String.length name = 1%nat).
Proof.
  intros Hch.
  destruct (welcome_logs_each_channel self st) as [_ Hsent].
  rewrite Hsent, Hch. simpl. rewrite <- list_fmap_compose.
  split; [done|]. split.
  - rewrite length_app, length_fmap. f_equal.
    clear. induction name as [|c name IH]; simpl; [done|by rewrite IH].
  - intros (c & [= ->] & _)%list_elem_of_fmap. done.
Qed.

Lemma ops_as_string_is_joined_by_character :
  Connection.sent (conn (Bot.on_welcome
                           (IRCSensor.setup
                              {| IRCSensor._server_host := "irc.example.org";
                                 IRCSensor._server_port := 6697;
                                 IRCSensor._nickname := CStr "bot1";
                                 IRCSensor._password := None;
                                 IRCSensor._channels := CStr "#ops" |})
                           (fresh_session "bot1")))
    = (Connection.sent (conn (fresh_session "bot1"))
         ++ ((λ c, JOIN (String c "")) <$> list_ascii_of_string "#ops"))%list ∧
  length (Connection.sent (conn (Bot.on_welcome
                           (IRCSensor.setup
                              {| IRCSensor._server_host := "irc.example.org";
                                 IRCSensor._server_port := 6697;
                                 IRCSensor._nickname := CStr "bot1";
                                 IRCSensor._password := None;
                                 IRCSensor._channels := CStr "#ops" |})
                           (fresh_session "bot1"))))
    = (length (Connection.sent (conn (fresh_session "bot1")))
       + String.length "#ops")%nat ∧
  (JOIN "#ops" ∈ ((λ c, JOIN (String c "")) <$> list_ascii_of_string "#ops")
     → String.length "#ops" = 1%nat).
Proof.
  apply (string_channels_are_joined_by_character
           (IRCSensor.setup
              {| IRCSensor._server_host := "irc.example.org";
                 IRCSensor._server_port := 6697;
                 IRCSensor._nickname := CStr "bot1";
                 IRCSensor._password := None;
                 IRCSensor._channels := CStr "#ops" |})
           "#ops" (fresh_session "bot1")).
  reflexivity.
Defined.

Example ops_as_string_joins :
  Connection.sent (conn (Bot.on_welcome
                           (IRCSensor.setup
                              {| IRCSensor._server_host := "irc.example.org";
                                 IRCSensor._server_port := 6697;
                                 IRCSensor._nickname := CStr "bot1";
                                 IRCSensor._password := None;
                                 IRCSensor._channels := CStr "#ops" |})
                           (fresh_session "bot1")))
    = [JOIN "#"; JOIN "o"; JOIN "p"; JOIN "s"].
Proof. reflexivity. Qed.

(** ** The payloads of the four kinds, side by side *)

(** The payloads that two handlers make for the same stamped event agree on
    every key that both have: [source], [timestamp], [channel] and
    [message] mean the same in every kind of trigger. *)
Theorem payloads_agree_on_shared_keys
    (k1 k2 : kind) (e : Event) (st : session)
    (p1 p2 : gmap string pyval) (key : string) (v1 v2 : pyval) :
  handler_of k1 e st = Ok (dispatch (trigger_name k1) p1 st) →
  handler_of k2 e st = Ok (dispatch (trigger_name k2) p2 st) →
  p1 !! key = Some v1 →
  p2 !! key = Some v2 →
  v1 = v2.
Proof.
  assert (∀ k p,
            handler_of k e st = Ok (dispatch (trigger_name k) p st) →
            ∀ v, p !! key = Some v →
                 (key = "source" ∧
                  v = PDict (dict [("nick", PStr (nick (source e)));
                                   ("host", PStr (host (source e)))])) ∨
                 (key = "timestamp" ∧ Some v = PInt <$> timestamp e) ∨
                 (key = "channel" ∧ v = PStr (target e)) ∨
                 (key = "message" ∧ Some v = PStr <$> head (arguments e)))
    as Hvalue.
  { intros k p Hk v Hv.
    destruct k; simpl in Hk;
      unfold IRCSensor._handle_pubmsg, IRCSensor._handle_privmsg,
        IRCSensor._handle_join, IRCSensor._handle_part, get_timestamp in Hk;
      destruct (timestamp e) as [t|]; simpl in Hk; try discriminate Hk;
      try (destruct (arguments e) as [|m rest]; simpl in Hk; try discriminate Hk);
      injection Hk as Hk; apply app_inv_head in Hk; injection Hk as <-;
      repeat (rewrite lookup_insert in Hv;
              match type of Hv with
              | context [decide (?a = key)] =>
                  destruct (decide (a = key)) as [<-|_]
              end;
              [injection Hv as <-;
               first [ left; split; reflexivity
                     | right; left; split; reflexivity
                     | right; right; left; split; reflexivity
                     | right; right; right; split; reflexivity ]|]);
      by rewrite lookup_empty in Hv. }
  intros H1 H2 Hv1 Hv2.
  destruct (Hvalue k1 p1 H1 v1 Hv1) as [[-> ->]|[[-> Ht1]|[[-> ->]|[-> Hm1]]]];
    destruct (Hvalue k2 p2 H2 v2 Hv2) as [[? ->]|[[? Ht2]|[[? ->]|[? Hm2]]]];
    try done; congruence.
Qed.

Lemma alice_pubmsg_privmsg_share_source :
  PDict (dict [("nick", PStr "alice"); ("host", PStr "alice@host")])
  = PDict (dict [("nick", PStr "alice"); ("host", PStr "alice@host")]).
Proof.
  apply (payloads_agree_on_shared_keys pubmsg privmsg
           (set_timestamp 7 alice_says) (fresh_session "bot1")
           (dict [("source", PDict (dict [("nick", PStr "alice");
                                          ("host", PStr "alice@host")]));
                  ("channel", PStr "#ops");
                  ("timestamp", PInt 7);
                  ("message", PStr "deploy v2")])
           (dict [("source", PDict (dict [("nick", PStr "alice");
                                          ("host", PStr "alice@host")]));
                  ("timestamp", PInt 7);
                  ("message", PStr "deploy v2")])
           "source").
  - reflexivity.
  - reflexivity.
  - vm_compute. reflexivity.
  - vm_compute. reflexivity.
Defined.

(** ** The password of the bot *)

(** [setup] never builds a SASL bot without a password, nor a bot without
    authentication that holds one: the SASL bot is given the configured
    password, which is not empty, and the other bot is given none, also
    when the configuration has an empty one. *)
Theorem password_goes_with_the_class (self : IRCSensor.t) :
  match Bot.class (IRCSensor.setup self) with
  | StackStormSensorSaslBot =>
      ∃ p, Bot.ident_password (IRCSensor.setup self) = Some p ∧
           IRCSensor._password self = Some p ∧ nonempty p
  | StackStormSensorSimpleBot =>
      Bot.ident_password (IRCSensor.setup self) = None
  end.
Proof.
  unfold IRCSensor.setup.
  destruct (IRCSensor._password self) as [p|] eqn:Hp; simpl; [|done].
  destruct (truthy p) eqn:Ht; simpl; [|done].
  exists p. split; [done|]. split; [done|]. by apply truthy_nonempty.
Qed.
